(** * japan-house-trend: record normalisation and yearly aggregation

    A shallow embedding of [src/data_transformer.py] (class
    [APIDataTransformer]) and of the group-by step of
    [src/update_pipeline.py] ([generate_single_chart]), together with the
    properties of the normalisation layer stated in the specification.

    The second part of the definitions covers the callers of that code:
    the data-quality report of the transformer, the selection of the
    viewer ([src/ui/home.py]), the API client ([src/api_client.py]) and
    the pipeline of [src/update_pipeline.py], with the network and the
    drawing of charts as parameters.

    Python values are modelled as follows.
    - A [str] is the list of its Unicode code points ([list N]).
    - [None] and [str] values that a JSON record can hold are the two
      constructors of [value].
    - [Optional[int]] is [option Z]; Python integers are unbounded.
    - An exception is an explicit result [Raise e]; [try: ... except: pass]
      is [try_except].
    - A [Dict] with string keys is a [gmap]; a [DataFrame] is the list of
      its rows. *)

From Stdlib Require Import ZArith NArith QArith Lia Ascii String.
From stdpp Require Import gmap strings list sorting.

Local Open Scope N_scope.

(** ** Unicode data used by the Python built-ins *)

Module Unicode.

Abbreviation str := (list N).

(** Decoding of the UTF-8 bytes of a Rocq string literal into code
    points, so that literals can be written as in the Python source. *)
Fixpoint utf8 (bs : list N) : str :=
  match bs with
  | [] => []
  | b0 :: r0 =>
      if b0 <? 0x80 then b0 :: utf8 r0
      else match r0 with
           | [] => []
           | b1 :: r1 =>
               if b0 <? 0xE0
               then ((b0 - 0xC0) * 0x40 + (b1 - 0x80)) :: utf8 r1
               else match r1 with
                    | [] => []
                    | b2 :: r2 =>
                        if b0 <? 0xF0
                        then ((b0 - 0xE0) * 0x1000 + (b1 - 0x80) * 0x40
                              + (b2 - 0x80)) :: utf8 r2
                        else match r2 with
                             | [] => []
                             | b3 :: r3 =>
                                 ((b0 - 0xF0) * 0x40000 + (b1 - 0x80) * 0x1000
                                  + (b2 - 0x80) * 0x40 + (b3 - 0x80)) :: utf8 r3
                             end
                    end
           end
  end.

Definition bytes_of (s : string) : list N :=
  (fun a => N_of_ascii a) <$> list_ascii_of_string s.

Definition lit (s : string) : str := utf8 (bytes_of s).

(** [str.isspace] on one character (CPython's [_PyUnicode_IsWhitespace]). *)
Definition Py_UNICODE_ISSPACE (c : N) : bool :=
  ((0x09 <=? c) && (c <=? 0x0D)) || ((0x1C <=? c) && (c <=? 0x20))
  || (c =? 0x85) || (c =? 0xA0) || (c =? 0x1680)
  || ((0x2000 <=? c) && (c <=? 0x200A))
  || (c =? 0x2028) || (c =? 0x2029) || (c =? 0x202F) || (c =? 0x205F)
  || (c =? 0x3000).

(** The C-locale [Py_ISSPACE] used by the integer parser on the
    already transliterated ASCII buffer. *)
Definition Py_ISSPACE (c : N) : bool :=
  ((0x09 <=? c) && (c <=? 0x0D)) || (c =? 0x20).

(** Code points of the digit zero of every decimal-digit block
    (general category Nd, Unicode 14.0.0 as shipped with CPython 3.11).
    Each block holds the ten digits 0..9 in order. *)
Definition decimal_zeros : list N :=
  [ 0x30; 0x660; 0x6F0; 0x7C0; 0x966; 0x9E6; 0xA66; 0xAE6; 0xB66; 0xBE6;
    0xC66; 0xCE6; 0xD66; 0xDE6; 0xE50; 0xED0; 0xF20; 0x1040; 0x1090;
    0x17E0; 0x1810; 0x1946; 0x19D0; 0x1A80; 0x1A90; 0x1B50; 0x1BB0;
    0x1C40; 0x1C50; 0xA620; 0xA8D0; 0xA900; 0xA9D0; 0xA9F0; 0xAA50;
    0xABF0; 0xFF10; 0x104A0; 0x10D30; 0x11066; 0x110F0; 0x11136;
    0x111D0; 0x112F0; 0x11450; 0x114D0; 0x11650; 0x116C0; 0x11730;
    0x118E0; 0x11950; 0x11C50; 0x11D50; 0x11DA0; 0x16A60; 0x16AC0;
    0x16B50; 0x1D7CE; 0x1D7D8; 0x1D7E2; 0x1D7EC; 0x1D7F6; 0x1E140;
    0x1E2F0; 0x1E950; 0x1FBF0 ].

Fixpoint decimal_in (zs : list N) (c : N) : option N :=
  match zs with
  | [] => None
  | z :: zs' =>
      if (z <=? c) && (c <? z + 10) then Some (c - z) else decimal_in zs' c
  end.

(** [Py_UNICODE_TODECIMAL]: the decimal value of a character, if any. *)
Definition Py_UNICODE_TODECIMAL (c : N) : option N :=
  decimal_in decimal_zeros c.

(** The regular-expression class [\d] on [str] patterns. *)
Definition isdecimal (c : N) : bool :=
  match Py_UNICODE_TODECIMAL c with Some _ => true | None => false end.

End Unicode.

Import Unicode.

(** ** Python built-ins used by the transformer *)

Module Py.

Inductive value : Type :=
| VNone
| VStr (s : str).

Inductive exn : Type := ValueError | TypeError.

Inductive res (A : Type) : Type :=
| Ret (a : A)
| Raise (e : exn).
Arguments Ret {A} a.
Arguments Raise {A} e.

#[global] Instance res_ret : MRet res := fun A a => Ret a.
#[global] Instance res_bind : MBind res := fun A B f m =>
  match m with
  | Ret a => f a
  | Raise e => Raise e
  end.

(** [try: body  except: handler] with a bare [except]. *)
Definition try_except {A} (body handler : res A) : res A :=
  match body with
  | Ret a => Ret a
  | Raise _ => handler
  end.

(** Truth value of an object in a condition. *)
Definition truthy (v : value) : bool :=
  match v with
  | VNone => false
  | VStr s => negb (bool_decide (s = []))
  end.

Definition truthy_int (o : option Z) : bool :=
  match o with
  | None => false
  | Some z => negb (z =? 0)%Z
  end.

(** [a or b] on an optional integer [a] and an integer [b]. *)
Definition or_int (a : option Z) (b : Z) : Z :=
  if truthy_int a then default b a else b.

(** [str(x)] on a string is the string itself. *)
Definition py_str (s : str) : str := s.

Fixpoint lstrip (s : str) : str :=
  match s with
  | [] => []
  | c :: s' => if Py_UNICODE_ISSPACE c then lstrip s' else s
  end.

Definition rstrip (s : str) : str := reverse (lstrip (reverse s)).

(** [s.strip()] *)
Definition strip (s : str) : str := rstrip (lstrip s).

Fixpoint startswith (p s : str) : bool :=
  match p, s with
  | [], _ => true
  | _ :: _, [] => false
  | a :: p', b :: s' => (a =? b) && startswith p' s'
  end.

(** [p in s] for two strings: [p] occurs as a contiguous substring. *)
Fixpoint contains (p s : str) : bool :=
  startswith p s ||
  match s with
  | [] => false
  | _ :: s' => contains p s'
  end.

(** [s.replace(c, '')] for a one-character string [c]. *)
Definition remove_char (c : N) (s : str) : str :=
  List.filter (fun x => negb (x =? c)) s.

(** [re.sub(r'[^...]', '', s)]: keep the characters of the class. *)
Definition keep (cls : N -> bool) (s : str) : str := List.filter cls s.

(** *** [int(s)] for a string [s], base ten *)

(** [_PyUnicode_TransformDecimalAndSpaceToASCII]: ASCII is kept, other
    white space becomes a blank, other decimal digits become ASCII
    digits and anything else becomes ['?'] (CPython stops at the first
    ['?'], which the parser rejects at any position). *)
Definition transform_char (c : N) : N :=
  if c <? 127 then c
  else if Py_UNICODE_ISSPACE c then 0x20
  else match Py_UNICODE_TODECIMAL c with
       | Some d => 0x30 + d
       | None => 0x3F
       end.

Definition transform_decimal_and_space (s : str) : str :=
  transform_char <$> s.

Definition ascii_digit (c : N) : option N :=
  if (0x30 <=? c) && (c <=? 0x39) then Some (c - 0x30) else None.

(** Digits after the first one; a single underscore may separate two
    digits.  Returns the value and the unread rest. *)
Fixpoint long_digits (acc : N) (s : str) : option (N * str) :=
  match s with
  | [] => Some (acc, [])
  | c :: s' =>
      match ascii_digit c with
      | Some d => long_digits (acc * 10 + d) s'
      | None =>
          if c =? 0x5F then
            match s' with
            | [] => None
            | c' :: s'' =>
                match ascii_digit c' with
                | Some d => long_digits (acc * 10 + d) s''
                | None => None
                end
            end
          else Some (acc, s)
      end
  end.

Fixpoint skip_blanks (s : str) : str :=
  match s with
  | [] => []
  | c :: s' => if Py_ISSPACE c then skip_blanks s' else s
  end.

(** [PyLong_FromString] with base 10: blanks, an optional sign, the
    digits, blanks, end of input. *)
Definition long_from_string (s : str) : option Z :=
  let s1 := skip_blanks s in
  let '(negative, s2) :=
    match s1 with
    | c :: r => if c =? 0x2B then (false, r)
                else if c =? 0x2D then (true, r)
                else (false, s1)
    | [] => (false, s1)
    end in
  match s2 with
  | [] => None
  | c :: r =>
      match ascii_digit c with
      | None => None
      | Some d =>
          match long_digits d r with
          | None => None
          | Some (n, rest) =>
              match skip_blanks rest with
              | [] => Some (if negative then - Z.of_N n else Z.of_N n)%Z
              | _ :: _ => None
              end
          end
      end
  end.

(** [int(s)].  The interpreter's configurable limit on the number of
    digits of a converted string is not part of the model. *)
Definition py_int (s : str) : res Z :=
  match long_from_string (transform_decimal_and_space s) with
  | Some z => Ret z
  | None => Raise ValueError
  end.

(** *** [float(s)] on strings of decimal digits and full stops

    [clean_area] only passes strings over this alphabet.  The value is
    kept as the exact rational the text denotes; rounding to binary64 is
    not modelled.  Any other text raises [ValueError] here. *)
Fixpoint float_digits (acc : N) (n : nat) (s : str) : N * nat * str :=
  match s with
  | [] => (acc, n, [])
  | c :: s' =>
      match ascii_digit c with
      | Some d => float_digits (acc * 10 + d) (S n) s'
      | None => (acc, n, s)
      end
  end.

Definition pow10 (n : nat) : positive := Nat.iter n (Pos.mul 10) 1%positive.

Definition float_from_string (s : str) : option Q :=
  let '(i, ni, r) := float_digits 0 0%nat s in
  match r with
  | [] => if (ni =? 0)%nat then None else Some (Z.of_N i # 1)%Q
  | c :: r' =>
      if c =? 0x2E then
        let '(m, nm, r'') := float_digits i 0%nat r' in
        match r'' with
        | [] => if (ni + nm =? 0)%nat then None
                else Some (Z.of_N m # pow10 nm)%Q
        | _ :: _ => None
        end
      else None
  end.

Definition py_float (s : str) : res Q :=
  match float_from_string (transform_decimal_and_space s) with
  | Some q => Ret q
  | None => Raise ValueError
  end.

(** *** [re.search(r'(\d{4})年', s)]

    The first group of the leftmost match, if there is one.  A subject
    that is not a string raises [TypeError]. *)
Definition nen : N := 0x5E74.

Fixpoint search_year (s : str) : option str :=
  match s with
  | [] => None
  | a :: s' =>
      match s' with
      | b :: c :: d :: e :: _ =>
          if isdecimal a && isdecimal b && isdecimal c && isdecimal d
             && (e =? nen)
          then Some [a; b; c; d]
          else search_year s'
      | _ => None
      end
  end.

Definition re_search_year (subject : value) : res (option str) :=
  match subject with
  | VStr s => Ret (search_year s)
  | VNone => Raise TypeError
  end.

(** [d.get(key, default)]; [d.get(key)] is [get d key VNone]. *)
Definition get (d : gmap string value) (key : string) (dflt : value) : value :=
  default dflt (d !! key).

End Py.

Import Py.


(** ** [APIDataTransformer] ([src/data_transformer.py]) *)

Module APIDataTransformer.

(** A record of the API response: a dictionary from field names to
    strings or [None]. *)
Abbreviation RawRecord := (gmap string value).

(** The dictionary built by [transform_api_record]; one field per key. *)
Record Transformed : Type := {
  kind : value;              (* '種類' *)
  prefecture : value;        (* '都道府県名' *)
  municipality : value;      (* '市区町村名' *)
  district : value;          (* '地区名' *)
  station_name : value;      (* '最寄駅：名称' *)
  station_distance : value;  (* '最寄駅：距離（分）' *)
  price : option Z;          (* '取引価格（総額）' *)
  floor_plan : str;          (* '間取り' *)
  area : option Q;           (* '面積（㎡）' *)
  building_year : value;     (* '建築年' *)
  period : value;            (* '取引時期' *)
  year : option Z;           (* '取引時期（年）' *)
  age : option Z             (* '築年数' *)
}.

Definition room_type_mapping : gmap str str :=
  list_to_map
    [ (lit "１Ｒ", lit "１Ｒ");
      (lit "１Ｋ", lit "１Ｋ");
      (lit "１ＤＫ", lit "１Ｋ");
      (lit "１ＬＤＫ", lit "１ＬＤＫ");
      (lit "２Ｋ", lit "１Ｋ");
      (lit "２ＤＫ", lit "２ＬＤＫ");
      (lit "２ＬＤＫ", lit "２ＬＤＫ");
      (lit "３Ｋ", lit "３ＬＤＫ");
      (lit "３ＤＫ", lit "３ＬＤＫ");
      (lit "３ＬＤＫ", lit "３ＬＤＫ");
      (lit "４Ｋ", lit "４ＬＤＫ");
      (lit "４ＤＫ", lit "４ＬＤＫ");
      (lit "４ＬＤＫ", lit "４ＬＤＫ");
      (lit "５Ｋ以上", lit "４ＬＤＫ");
      (lit "５ＤＫ以上", lit "４ＬＤＫ");
      (lit "５ＬＤＫ以上", lit "４ＬＤＫ") ].

Definition valid_property_types : list str :=
  [ lit "中古マンション等"; lit "宅地(土地と建物)"; lit "土地"; lit "建物" ].

(** [x in self.valid_property_types] *)
Definition in_valid_property_types (x : value) : bool :=
  match x with
  | VStr s => bool_decide (s ∈ valid_property_types)
  | VNone => false
  end.

Definition extract_year_from_period (period : value) : res (option Z) :=
  try_except
    (m ← re_search_year period;
     match m with
     | Some group1 => y ← py_int group1; Ret (Some y)
     | None => Ret None
     end)
    (Ret None).

Definition extract_building_age (building_year : value) (transaction_year : Z)
  : res (option Z) :=
  try_except
    (match building_year with
     | VStr s =>
         if truthy building_year && contains [nen] s then
           built_year ← py_int (remove_char nen s);
           let age := (transaction_year - built_year)%Z in
           Ret (Some (Z.max 0 age))
         else Ret None
     | VNone => Ret None
     end)
    (Ret None).

Definition standardize_room_type (floor_plan : value) : res str :=
  match floor_plan with
  | VNone => Ret (lit "その他")
  | VStr s =>
      if negb (truthy floor_plan) then Ret (lit "その他")
      else
        let clean_plan := strip s in
        match room_type_mapping !! clean_plan with
        | Some category => Ret category
        | None =>
            if contains (lit "１Ｒ") clean_plan || contains (lit "1R") clean_plan
            then Ret (lit "１Ｒ")
            else if contains (lit "１Ｋ") clean_plan || contains (lit "1K") clean_plan
            then Ret (lit "１Ｋ")
            else if contains (lit "１ＬＤＫ") clean_plan || contains (lit "1LDK") clean_plan
            then Ret (lit "１ＬＤＫ")
            else if contains (lit "２ＬＤＫ") clean_plan || contains (lit "2LDK") clean_plan
            then Ret (lit "２ＬＤＫ")
            else if contains (lit "３ＬＤＫ") clean_plan || contains (lit "3LDK") clean_plan
            then Ret (lit "３ＬＤＫ")
            else if contains (lit "４ＬＤＫ") clean_plan || contains (lit "4LDK") clean_plan
            then Ret (lit "４ＬＤＫ")
            else Ret (lit "その他")
        end
  end.

Definition clean_price (trade_price : value) : res (option Z) :=
  try_except
    (match trade_price with
     | VStr s =>
         if truthy trade_price then
           let clean_price := keep isdecimal (py_str s) in
           if bool_decide (clean_price = []) then Ret None
           else p ← py_int clean_price; Ret (Some p)
         else Ret None
     | VNone => Ret None
     end)
    (Ret None).

Definition clean_area (area : value) : res (option Q) :=
  try_except
    (match area with
     | VStr s =>
         if truthy area then
           let clean_area := keep (fun c => isdecimal c || (c =? 0x2E)) (py_str s) in
           if bool_decide (clean_area = []) then Ret None
           else a ← py_float clean_area; Ret (Some a)
         else Ret None
     | VNone => Ret None
     end)
    (Ret None).

Definition transform_api_record (api_record : RawRecord) : res Transformed :=
  transaction_year ← extract_year_from_period (get api_record "Period" (VStr []));
  price_ ← clean_price (get api_record "TradePrice" (VStr []));
  floor_plan_ ← standardize_room_type (get api_record "FloorPlan" (VStr []));
  area_ ← clean_area (get api_record "Area" (VStr []));
  age_ ← extract_building_age (get api_record "BuildingYear" (VStr []))
                              (or_int transaction_year 2024);
  Ret {| kind := get api_record "Type" (VStr []);
         prefecture := get api_record "Prefecture" (VStr []);
         municipality := get api_record "Municipality" (VStr []);
         district := get api_record "DistrictName" (VStr []);
         station_name := VStr [];
         station_distance := VStr [];
         price := price_;
         floor_plan := floor_plan_;
         area := area_;
         building_year := get api_record "BuildingYear" (VStr []);
         period := get api_record "Period" (VStr []);
         year := transaction_year;
         age := age_ |}.

(** The loop of [transform_api_data]; the result lists the rows of the
    returned [DataFrame] in order (no row: the empty [DataFrame]). *)
Fixpoint transform_api_data (api_data : list RawRecord) : res (list Transformed) :=
  match api_data with
  | [] => Ret []
  | record :: rest =>
      if in_valid_property_types (get record "Type" VNone) then
        transformed ← transform_api_record record;
        transformed_records ← transform_api_data rest;
        if truthy_int (price transformed) && truthy_int (year transformed)
        then Ret (transformed :: transformed_records)
        else Ret transformed_records
      else transform_api_data rest
  end.

End APIDataTransformer.

Import APIDataTransformer.

(** ** The yearly aggregation of [generate_single_chart]
       ([src/update_pipeline.py]; [src/ui/home.py] and
       [src/backend/export.py] apply the same group-by to their own
       selection of rows) *)

Module ChartGenerator.

#[global] Instance value_eq_dec : EqDecision value.
Proof. solve_decision. Defined.

Abbreviation DataFrame := (list Transformed).

(** A [Series] indexed by year, in index order. *)
Abbreviation Series A := (list (Z * A)).

(** [df[(df['市区町村名'] == area) & (df['間取り'] == room_type)]], or the
    area test alone when [room_type] is ["ALL"]. *)
Definition filter_area_room (df : DataFrame) (area room_type : str) : DataFrame :=
  if bool_decide (room_type ≠ lit "ALL")
  then filter (fun r => municipality r = VStr area ∧ floor_plan r = room_type) df
  else filter (fun r => municipality r = VStr area) df.

(** The group keys of [groupby]: the distinct non-missing years in
    increasing order. *)
Fixpoint insert_key (y : Z) (ks : list Z) : list Z :=
  match ks with
  | [] => [y]
  | k :: ks' =>
      if (y <? k)%Z then y :: ks
      else if (y =? k)%Z then ks
      else k :: insert_key y ks'
  end.

Definition group_keys (df : DataFrame) : list Z :=
  foldr insert_key [] (omap year df).

(** The price column of the rows of one group. *)
Definition group (df : DataFrame) (y : Z) : list (option Z) :=
  price <$> filter (fun r => year r = Some y) df.

Definition present (xs : list (option Z)) : list Z := omap id xs.

Definition total (xs : list Z) : Z := foldr Z.add 0%Z xs.

(** [.mean()] skips missing values; the mean of no value is missing.
    The mean is kept as an exact rational: floating-point rounding is
    not modelled. *)
Definition mean (xs : list (option Z)) : option Q :=
  match present xs with
  | [] => None
  | v :: vs => Some (Qred (total (v :: vs) # Pos.of_nat (length (v :: vs))))
  end.

(** [.count()] counts the values that are not missing. *)
Definition count (xs : list (option Z)) : nat := length (present xs).

(** [df.groupby('取引時期（年）')['取引価格（総額）'].agg()] *)
Definition groupby {A} (agg : list (option Z) -> A) (df : DataFrame) : Series A :=
  (fun y => (y, agg (group df y))) <$> group_keys df.

(** The two series plotted by [generate_single_chart]; [None] when the
    selection is empty and the chart is skipped. *)
Definition generate_single_chart (area room_type : str) (df : DataFrame)
  : option (Series (option Q) * Series nat) :=
  let df_filtered := filter_area_room df area room_type in
  if bool_decide (length df_filtered = 0%nat) then None
  else
    let yearly_avg_price := groupby mean df_filtered in
    let yearly_count := groupby count df_filtered in
    Some (yearly_avg_price, yearly_count).

(** [series[y]] *)
Fixpoint series_get {A} (s : Series A) (y : Z) : option A :=
  match s with
  | [] => None
  | (k, v) :: s' => if (k =? y)%Z then Some v else series_get s' y
  end.

End ChartGenerator.

Import ChartGenerator.

(** ** Notions used to state the properties *)

(** The number written by a string of decimal digits, most significant
    digit first. *)
Definition decimal_value (ds : str) : N :=
  foldl (fun acc c => acc * 10 + default 0 (Py_UNICODE_TODECIMAL c)) 0 ds.

(** The year a period label holds: the four digits of the leftmost match
    of [(\d{4})年], read as a number. *)
Definition period_year (period : value) : option Z :=
  match period with
  | VStr s => (fun group1 => Z.of_N (decimal_value group1)) <$> search_year s
  | VNone => None
  end.

(** The price a string holds: its decimal digits, in order, read as one
    number; no price when it has no digit. *)
Definition price_of (s : str) : option Z :=
  match keep isdecimal s with
  | [] => None
  | d :: ds => Some (Z.of_N (decimal_value (d :: ds)))
  end.

(** The categories a floor plan is normalised to. *)
Definition room_categories : list str :=
  [ lit "１Ｒ"; lit "１Ｋ"; lit "１ＬＤＫ"; lit "２ＬＤＫ"; lit "３ＬＤＫ";
    lit "４ＬＤＫ"; lit "その他" ].

(** Admissibility of a normalised record as the specification defines it:
    price present, transaction year present, property type valid. *)
Definition admissible (t : Transformed) : Prop :=
  is_Some (price t) ∧ is_Some (year t) ∧ in_valid_property_types (kind t) = true.

(** The test the batch loop applies to a transformed record. *)
Definition kept (t : Transformed) : Prop :=
  in_valid_property_types (kind t) = true
  ∧ (∃ p, price t = Some p ∧ p ≠ 0%Z)
  ∧ (∃ y, year t = Some y ∧ y ≠ 0%Z).


(** A record fixture in the shape of the API response. *)
Definition record_of (fields : list (string * string)) : RawRecord :=
  list_to_map ((fun kv => (kv.1, VStr (lit kv.2))) <$> fields).

Definition row (y p : Z) : Transformed :=
  {| kind := VStr (lit "中古マンション等"); prefecture := VStr []; municipality := VStr [];
     district := VStr []; station_name := VStr []; station_distance := VStr [];
     price := Some p; floor_plan := lit "その他"; area := None;
     building_year := VStr []; period := VStr []; year := Some y; age := None |}.

(** ** Further notions *)

(** The test of the batch loop on one transformed record, as a boolean. *)
Definition keep_row (t : Transformed) : bool :=
  in_valid_property_types (kind t) && truthy_int (price t) && truthy_int (year t).

(** ** [validate_transformed_data] ([src/data_transformer.py]) *)

Module DataQuality.

(** A [DataFrame] as [validate_transformed_data] sees it: the frame
    [pd.DataFrame()] without any column, or a frame with the columns of
    the transformed records and the given rows. *)
Inductive Frame : Type :=
| NoColumns
| Columns (rows : list Transformed).

(** The frame [transform_api_data] returns for the records it kept:
    [pd.DataFrame()] when it kept none, [pd.DataFrame(transformed_records)]
    otherwise. *)
Definition frame_of (transformed_records : list Transformed) : Frame :=
  match transformed_records with
  | [] => NoColumns
  | _ :: _ => Columns transformed_records
  end.

(** [len(df)] *)
Definition frame_len (df : Frame) : nat :=
  match df with
  | NoColumns => 0%nat
  | Columns rows => length rows
  end.

(** The result of an operation that may raise [KeyError]. *)
Inductive lookup_result (A : Type) : Type :=
| Found (a : A)
| KeyError (column : str).
Arguments Found {A} a.
Arguments KeyError {A} column.

(** [col.isna().sum()] and [col.notna().sum()] *)
Definition isna_sum {A} (col : list (option A)) : nat :=
  length (List.filter (fun o => match o with None => true | Some _ => false end) col).

Definition notna_sum {A} (col : list (option A)) : nat :=
  length (List.filter (fun o => match o with None => false | Some _ => true end) col).

(** [col.min()] and [col.max()]: missing values are skipped; the result
    is missing when no value is left. *)
Definition col_min (col : list (option Z)) : option Z :=
  match omap id col with
  | [] => None
  | v :: vs => Some (foldr Z.min v vs)
  end.

Definition col_max (col : list (option Z)) : option Z :=
  match omap id col with
  | [] => None
  | v :: vs => Some (foldr Z.max v vs)
  end.

Definition str_of (v : value) : option str :=
  match v with
  | VStr s => Some s
  | VNone => None
  end.

(** [col.nunique()]: the number of distinct values that are not missing. *)
Definition nunique (col : list value) : nat :=
  length (remove_dups (omap str_of col)).

(** [col.value_counts().to_dict()] *)
Definition value_counts (col : list str) : gmap str nat :=
  foldr (fun c counts => <[c := S (default 0%nat (counts !! c))]> counts) ∅ col.

Record Validation : Type := {
  total_records : nat;
  missing_prices : nat;
  missing_areas : nat;
  missing_room_types : nat;
  valid_years : nat;
  year_range : option Z * option Z;
  unique_areas : nat;
  room_type_distribution : gmap str nat
}.

(** The columns are read in the order of the dictionary literal, so a
    frame without columns fails on the price column. *)
Definition validate_transformed_data (df : Frame) : lookup_result Validation :=
  match df with
  | NoColumns => KeyError (lit "取引価格（総額）")
  | Columns rows =>
      Found {| total_records := frame_len df;
               missing_prices := isna_sum (price <$> rows);
               missing_areas := isna_sum (area <$> rows);
               missing_room_types := isna_sum ((fun r => Some (floor_plan r)) <$> rows);
               valid_years := notna_sum (year <$> rows);
               year_range :=
                 if bool_decide (0 < frame_len df)%nat
                 then (col_min (year <$> rows), col_max (year <$> rows))
                 else (None, None);
               unique_areas := nunique (municipality <$> rows);
               room_type_distribution := value_counts (floor_plan <$> rows) |}
  end.

End DataQuality.

Import DataQuality.

(** ** The selection of the viewer ([src/ui/home.py]) *)

Module Home.

(** The two keys of [age_options]: "15年以内" and "16年以上". *)
Inductive age_range : Type := Within15 | Over15.

(** The mask [age_options[key]] on one row: [df['築年数'] <= 15] and
    [df['築年数'] > 15]; a comparison with a missing age is false. *)
Definition age_options (key : age_range) (r : Transformed) : bool :=
  match age r with
  | None => false
  | Some a =>
      match key with
      | Within15 => (a <=? 15)%Z
      | Over15 => (15 <? a)%Z
      end
  end.

(** [df_filtered]: the rows of the selected area and age range, of the
    selected layout unless it is ['All'].  The selected area is a name:
    a missing area selects no row. *)
Definition df_filtered (df : DataFrame) (selected_area selected_layout : str)
    (selected_age_range : age_range) : DataFrame :=
  if bool_decide (selected_layout = lit "All")
  then filter (fun r => municipality r = VStr selected_area
                        ∧ age_options selected_age_range r = true) df
  else filter (fun r => municipality r = VStr selected_area
                        ∧ floor_plan r = selected_layout
                        ∧ age_options selected_age_range r = true) df.

End Home.

Import Home.

(** ** [MLITAPIClient] ([src/api_client.py])

    The network is a parameter: [requests_get] gives, for the query
    parameters of a request, what [requests.get] and [response.json()]
    come to.  Printing and the pause between requests are not modelled. *)

Module MLITAPIClient.

(** Exceptions of the client code: the division of the progress display,
    and any exception that [fetch_quarter_data] does not catch. *)
Inductive exception : Type := ZeroDivisionError | Uncaught.

Inductive outcome (A : Type) : Type :=
| Done (a : A)
| Raised (e : exception).
Arguments Done {A} a.
Arguments Raised {A} e.

#[global] Instance outcome_ret : MRet outcome := fun A a => Done a.
#[global] Instance outcome_bind : MBind outcome := fun A B f m =>
  match m with
  | Done a => f a
  | Raised e => Raised e
  end.

(** [response.json()]: a decoding error, or an object with its ['status']
    ([None] when absent) and its ['data'] when it has one.  The replies
    covered are those of the API: a body that decodes is an object, and
    its ['data'] is a list of records. *)
Inductive Body : Type :=
| NotJson
| Json (status : value) (data : option (list RawRecord)).

(** [requests.get(...)]: a time-out, another request exception, a
    response, or an exception of another class. *)
Inductive Reply : Type :=
| Timeout
| RequestException
| Response (status_code : Z) (body : Body)
| OtherError.

(** [self.prefecture_codes], in the order of the dictionary. *)
Definition prefecture_codes : list (string * str) :=
  [ ("tokyo", lit "13"); ("chiba", lit "12"); ("saitama", lit "11");
    ("kanagawa", lit "14"); ("osaka", lit "27"); ("aichi", lit "23") ]%string.

Definition prefecture_names : gmap str str :=
  list_to_map
    [ (lit "13", lit "東京都"); (lit "12", lit "千葉県"); (lit "11", lit "埼玉県");
      (lit "14", lit "神奈川県"); (lit "27", lit "大阪府"); (lit "23", lit "愛知県") ].

(** [str(n)] for an integer. *)
Fixpoint uint_chars (d : Decimal.uint) : str :=
  match d with
  | Decimal.Nil => []
  | Decimal.D0 d => 0x30 :: uint_chars d
  | Decimal.D1 d => 0x31 :: uint_chars d
  | Decimal.D2 d => 0x32 :: uint_chars d
  | Decimal.D3 d => 0x33 :: uint_chars d
  | Decimal.D4 d => 0x34 :: uint_chars d
  | Decimal.D5 d => 0x35 :: uint_chars d
  | Decimal.D6 d => 0x36 :: uint_chars d
  | Decimal.D7 d => 0x37 :: uint_chars d
  | Decimal.D8 d => 0x38 :: uint_chars d
  | Decimal.D9 d => 0x39 :: uint_chars d
  end.

Definition str_of_int (z : Z) : str :=
  match Z.to_int z with
  | Decimal.Pos d => uint_chars d
  | Decimal.Neg d => 0x2D :: uint_chars d
  end.

(** The query parameters of [fetch_quarter_data]. *)
Definition quarter_params (prefecture_code year quarter : str) (city : option str)
  : gmap string str :=
  let params : gmap string str :=
    <["priceClassification" := lit "01"]>
      (<["area" := prefecture_code]>
         (<["quarter" := quarter]> (<["year" := year]> ∅))) in
  match city with
  | Some c => if bool_decide (c = []) then params else <["city" := c]> params
  | None => params
  end.

(** A record after the four assignments of [fetch_prefecture_data]:
    [fields] holds the keys of the API record other than the four that
    were assigned, whose values are the last four components. *)
Record Tagged : Type := {
  fields : RawRecord;
  prefecture_code : str;
  prefecture_name : str;
  fetch_year : Z;
  fetch_quarter : Z
}.

Definition tag (code name : str) (year quarter : Z) (record : RawRecord) : Tagged :=
  {| fields := delete "fetch_quarter"
                 (delete "fetch_year"
                    (delete "prefecture_name" (delete "prefecture_code" record)));
     prefecture_code := code;
     prefecture_name := name;
     fetch_year := year;
     fetch_quarter := quarter |}.

(** [a / b] on integers, as an exact rational. *)
Definition truediv (a b : Z) : outcome Q :=
  if (b =? 0)%Z then Raised ZeroDivisionError
  else Done (inject_Z a / inject_Z b)%Q.

(** The local variables of [fetch_prefecture_data] that change in its
    loop, with the requests sent and the progress values displayed. *)
Record FetchState : Type := {
  all_data : list Tagged;
  current_quarter : Z;
  requests : list (gmap string str);
  progress_shown : list Q
}.

Fixpoint for_each {S A} (body : S -> A -> outcome S) (s : S) (l : list A) : outcome S :=
  match l with
  | [] => Done s
  | x :: l' => s' ← body s x; for_each body s' l'
  end.

Section Network.

Variable requests_get : gmap string str -> Reply.

Definition fetch_quarter_data (prefecture_code year quarter : str)
    (city : option str) : outcome (list RawRecord) :=
  let params := quarter_params prefecture_code year quarter city in
  match requests_get params with
  | Response status_code body =>
      if (status_code =? 200)%Z then
        match body with
        | Json status (Some data) =>
            if bool_decide (status = VStr (lit "OK")) then Done data else Done []
        | Json _ None => Done []
        | NotJson => Done []
        end
      else Done []
  | Timeout => Done []
  | RequestException => Done []
  | OtherError => Raised Uncaught
  end.

(** [test_connection]: [False] only when an exception escapes
    [fetch_quarter_data]. *)
Definition test_connection : bool :=
  match fetch_quarter_data (lit "13") (lit "2024") (lit "1") None with
  | Done response =>
      if negb (bool_decide (response = [])) && bool_decide (0 < length response)%nat
      then true
      else true
  | Raised _ => false
  end.

(** One turn of the inner loop of [fetch_prefecture_data]. *)
Definition fetch_cell (code name : str) (total_quarters : Z) (year : Z)
    (st : FetchState) (quarter : Z) : outcome FetchState :=
  let current := (current_quarter st + 1)%Z in
  ratio ← truediv current total_quarters;
  let progress := (ratio * 100)%Q in
  quarter_data ← fetch_quarter_data code (str_of_int year) (str_of_int quarter) None;
  let tagged :=
    if negb (bool_decide (quarter_data = []))
    then tag code name year quarter <$> quarter_data
    else [] in
  Done {| all_data := all_data st ++ tagged;
          current_quarter := current;
          requests := requests st
                      ++ [quarter_params code (str_of_int year) (str_of_int quarter) None];
          progress_shown := progress_shown st ++ [progress] |}.

Definition fetch_prefecture_data (code : str) (start_year end_year : Z)
  : outcome FetchState :=
  let total_quarters := ((end_year - start_year + 1) * 4)%Z in
  let name := default code (prefecture_names !! code) in
  for_each
    (fun st year => for_each (fetch_cell code name total_quarters year) st (seqZ 1 4))
    {| all_data := []; current_quarter := 0; requests := []; progress_shown := [] |}
    (seqZ start_year (end_year + 1 - start_year)).

(** [fetch_all_prefectures]: the dictionary returned, as the list of its
    items in insertion order.  A prefecture whose fetch raises gets the
    empty list. *)
Fixpoint fetch_each (codes : list (string * str)) (start_year end_year : Z)
  : list (string * list Tagged) :=
  match codes with
  | [] => []
  | (prefecture_name, code) :: codes' =>
      let prefecture_data :=
        match fetch_prefecture_data code start_year end_year with
        | Done st => all_data st
        | Raised _ => []
        end in
      (prefecture_name, prefecture_data) :: fetch_each codes' start_year end_year
  end.

Definition fetch_all_prefectures (start_year end_year : Z)
  : list (string * list Tagged) :=
  fetch_each prefecture_codes start_year end_year.

End Network.

End MLITAPIClient.

Import MLITAPIClient.

(** A tagged record of a fetch of the prefecture [code] over the years
    [s] to [e]: it is a record of the reply to the request of its own year
    and quarter, which lie in the range asked for. *)
Definition tagged_by (requests_get : gmap string str -> Reply)
    (code name : str) (s e : Z) (r : Tagged) : Prop :=
  prefecture_code r = code
  ∧ prefecture_name r = name
  ∧ (s ≤ fetch_year r ≤ e)%Z
  ∧ (1 ≤ fetch_quarter r ≤ 4)%Z
  ∧ ∃ data raw,
      fetch_quarter_data requests_get code (str_of_int (fetch_year r))
        (str_of_int (fetch_quarter r)) None = Done data
      ∧ raw ∈ data
      ∧ r = tag code name (fetch_year r) (fetch_quarter r) raw.

(** The state of the loop of [fetch_prefecture_data] after [k] turns. *)
Definition fetch_invariant (requests_get : gmap string str -> Reply)
    (code name : str) (s e total k : Z) (st : FetchState) : Prop :=
  (0 ≤ k)%Z
  ∧ current_quarter st = k
  ∧ length (requests st) = Z.to_nat k
  ∧ length (progress_shown st) = Z.to_nat k
  ∧ Forall (fun p => (0 < p)%Q ∧ (p <= 100)%Q) (progress_shown st)
  ∧ ((0 < k)%Z → ∃ p, last (progress_shown st) = Some p
                      ∧ (p == inject_Z k / inject_Z total * 100)%Q)
  ∧ Forall (tagged_by requests_get code name s e) (all_data st).

(** ** [HouseTrendUpdater] ([src/update_pipeline.py])

    Drawing is a parameter: [draw] tells, for a chart to be drawn from two
    non-empty series, whether the calls of the plotting library raise an
    exception.  The CSV files written are listed; failures of the file
    system are not modelled. *)

Module HouseTrendUpdater.

Definition room_types : list str :=
  [ lit "ALL"; lit "４ＬＤＫ"; lit "３ＬＤＫ"; lit "２ＬＤＫ"; lit "１ＬＤＫ"; lit "１Ｋ" ].

Definition processed_data_dir : string := "data".

Inductive language : Type := jp | en.

(** What makes [generate_single_chart] raise: [max()] of an empty series,
    or an exception of the plotting calls. *)
Inductive chart_exception : Type :=
| MaxOfEmpty
| Plotting (detail : str).

(** What makes [run_full_update] fail: an exception of the fetch or of
    the transformation. *)
Inductive pipeline_exception : Type :=
| FetchRaised (e : exception)
| TransformRaised (e : exn).

(** An entry of [progress['errors']]: the message of a failed chart, by
    its parts, or the text of the exception that stopped the run. *)
Inductive ErrorEntry : Type :=
| ChartFailed (prefecture : string) (area : value) (room_type : str)
    (e : chart_exception)
| RunFailed (e : pipeline_exception).

(** [self.progress] without its start time ([total_records_done] is the
    key ['total_records']). *)
Record Progress : Type := {
  prefectures_completed : nat;
  total_records_done : nat;
  charts_generated : nat;
  errors : list ErrorEntry
}.

(** A file written by [df.to_csv]. *)
Record Saved : Type := {
  csv_filename : string;
  csv_rows : list Transformed
}.

(** [df.empty] *)
Definition frame_empty (df : Frame) : bool :=
  match df with
  | NoColumns => true
  | Columns rows => bool_decide (rows = [])
  end.

Definition frame_rows (df : Frame) : list Transformed :=
  match df with
  | NoColumns => []
  | Columns rows => rows
  end.

(** One turn of the loop of [transform_and_save_data]. *)
Definition transform_and_save_one (prefecture : string) (records : list Tagged)
    (acc : list (string * Frame) * Progress * list Saved)
  : res (list (string * Frame) * Progress * list Saved) :=
  let '(prefecture_dataframes, progress, saved) := acc in
  '(df, added, written) ←
    (if negb (bool_decide (records = [])) then
       out ← transform_api_data (fields <$> records);
       let df := frame_of out in
       if negb (frame_empty df) then
         let csv_filename :=
           (processed_data_dir +:+ "/" +:+ prefecture +:+ "_api_processed.csv")%string in
         Ret (df, frame_len df,
              [{| csv_filename := csv_filename; csv_rows := frame_rows df |}])
       else Ret (NoColumns, 0%nat, [])
     else Ret (NoColumns, 0%nat, []));
  Ret (prefecture_dataframes ++ [(prefecture, df)],
       {| prefectures_completed := S (prefectures_completed progress);
          total_records_done := total_records_done progress + added;
          charts_generated := charts_generated progress;
          errors := errors progress |},
       saved ++ written).

(** The loop of [transform_and_save_data] over the items of [api_data]
    (a dictionary: the keys differ): the dictionary of frames (its items
    in order), the progress and the files written, as they are when the
    loop ends or when an exception leaves it. *)
Fixpoint transform_and_save_loop (api_data : list (string * list Tagged))
    (acc : list (string * Frame) * Progress * list Saved)
  : list (string * Frame) * Progress * list Saved * option exn :=
  match api_data with
  | [] => (acc, None)
  | (prefecture, records) :: rest =>
      match transform_and_save_one prefecture records acc with
      | Ret acc' => transform_and_save_loop rest acc'
      | Raise e => (acc, Some e)
      end
  end.

Definition transform_and_save_data (api_data : list (string * list Tagged))
    (progress : Progress)
  : list (string * Frame) * Progress * list Saved * option exn :=
  transform_and_save_loop api_data ([], progress, []).

(** [col.unique()]: the distinct values in order of first appearance. *)
Definition unique (col : list value) : list value :=
  foldl (fun seen v => if bool_decide (v ∈ seen) then seen else seen ++ [v]) [] col.

Section Drawing.

Variable draw :
  string -> str -> str -> language -> Series (option Q) -> Series nat -> option str.

(** [generate_single_chart] with its drawing: [None] when it returns
    (the chart was drawn, or skipped for lack of data), the exception
    otherwise.  An area that is missing selects no row.  With an empty
    series the call of [max] raises; [draw] is asked about the series
    that can be drawn. *)
Definition single_chart (prefecture : string) (area : value) (room_type : str)
    (df : DataFrame) (lang : language) : option chart_exception :=
  match area with
  | VNone => None
  | VStr a =>
      match generate_single_chart a room_type df with
      | None => None
      | Some (yearly_avg_price, yearly_count) =>
          match yearly_avg_price with
          | [] => Some MaxOfEmpty
          | _ :: _ =>
              Plotting <$> draw prefecture a room_type lang yearly_avg_price yearly_count
          end
      end
  end.

(** The body of the two loops of [generate_charts_for_prefecture]: both
    language versions, then the two counters; an exception of either
    version is recorded instead. *)
Definition chart_pair (prefecture : string) (df : DataFrame) (area : value)
    (acc : nat * Progress) (room_type : str) : nat * Progress :=
  let '(generated, progress) := acc in
  let failed e :=
    (generated,
     {| prefectures_completed := prefectures_completed progress;
        total_records_done := total_records_done progress;
        charts_generated := charts_generated progress;
        errors := errors progress ++ [ChartFailed prefecture area room_type e] |}) in
  match single_chart prefecture area room_type df jp with
  | Some e => failed e
  | None =>
      match single_chart prefecture area room_type df en with
      | Some e => failed e
      | None =>
          ((generated + 2)%nat,
           {| prefectures_completed := prefectures_completed progress;
              total_records_done := total_records_done progress;
              charts_generated := charts_generated progress + 2;
              errors := errors progress |})
      end
  end.

Definition generate_charts_for_prefecture (prefecture : string) (df : Frame)
    (test_mode : bool) (progress : Progress) : nat * Progress :=
  if frame_empty df then (0%nat, progress)
  else
    let areas := unique (municipality <$> frame_rows df) in
    let areas := if test_mode then take 3 areas else areas in
    foldl (fun acc area => foldl (chart_pair prefecture (frame_rows df) area) acc room_types)
      (0%nat, progress) areas.

(** The body of the loops of [generate_charts_batch]: as above, but the
    count only; a failure is displayed and not recorded. *)
Definition batch_pair (prefecture : string) (df : DataFrame) (area : value)
    (generated : nat) (room_type : str) : nat :=
  match single_chart prefecture area room_type df jp with
  | Some _ => generated
  | None =>
      match single_chart prefecture area room_type df en with
      | Some _ => generated
      | None => (generated + 2)%nat
      end
  end.

Definition generate_charts_batch (prefecture : string) (df : Frame)
    (areas_batch : list value) : nat :=
  if frame_empty df then 0%nat
  else
    foldl (fun acc area => foldl (batch_pair prefecture (frame_rows df) area) acc room_types)
      0%nat areas_batch.

(** [generate_all_charts] *)
Definition generate_all_charts (prefecture_dataframes : list (string * Frame))
    (test_mode : bool) (progress : Progress) : Progress :=
  foldl (fun progress item =>
           (generate_charts_for_prefecture item.1 item.2 test_mode progress).2)
    progress prefecture_dataframes.

End Drawing.

(** The dictionary written by [generate_completion_report], without its
    two times. *)
Record Report : Type := {
  report_prefectures_completed : nat;
  report_total_records_processed : nat;
  report_charts_generated : nat;
  report_errors_count : nat;
  report_errors : list ErrorEntry
}.

Definition generate_completion_report (progress : Progress) : Report :=
  {| report_prefectures_completed := prefectures_completed progress;
     report_total_records_processed := total_records_done progress;
     report_charts_generated := charts_generated progress;
     report_errors_count := length (errors progress);
     report_errors := errors progress |}.

(** [self.progress] as [__init__] sets it. *)
Definition initial_progress : Progress :=
  {| prefectures_completed := 0; total_records_done := 0;
     charts_generated := 0; errors := [] |}.

(** [run_full_update] on a new updater: the report of a run that
    completes, or the exception that is raised again, with the progress
    that has recorded it. *)
Definition run_full_update
    (requests_get : gmap string str -> Reply)
    (draw : string -> str -> str -> language -> Series (option Q) -> Series nat
            -> option str)
    (start_year end_year : Z) (test_mode : bool) : Report + pipeline_exception * Progress :=
  let progress := initial_progress in
  let failed e progress :=
    inr (e, {| prefectures_completed := prefectures_completed progress;
               total_records_done := total_records_done progress;
               charts_generated := charts_generated progress;
               errors := errors progress ++ [RunFailed e] |}) in
  let fetched : outcome (list (string * list Tagged)) :=
    if test_mode then
      st ← fetch_prefecture_data requests_get (lit "13") start_year end_year;
      Done [("tokyo"%string, all_data st)]
    else Done (fetch_all_prefectures requests_get start_year end_year) in
  match fetched with
  | Raised e => failed (FetchRaised e) progress
  | Done api_data =>
      match transform_and_save_data api_data progress with
      | (_, progress, _, Some e) => failed (TransformRaised e) progress
      | (prefecture_dataframes, progress, _, None) =>
          let progress := generate_all_charts draw prefecture_dataframes test_mode progress in
          inl (generate_completion_report progress)
      end
  end.

End HouseTrendUpdater.

Import HouseTrendUpdater.

(** The areas [generate_charts_for_prefecture] goes through. *)
Definition areas_of (df : Frame) (test_mode : bool) : list value :=
  let areas := unique (municipality <$> frame_rows df) in
  if test_mode then take 3 areas else areas.

(** The number of (area, room type) pairs it tries to chart. *)
Definition chart_attempts (df : Frame) (test_mode : bool) : nat :=
  if frame_empty df then 0%nat
  else (length (areas_of df test_mode) * length room_types)%nat.

(** From the count and progress [a] to the count and progress [b], [k]
    pairs were tried: each added 2 to both counters or one chart failure
    to the errors, and nothing else changed. *)
Definition counted (k : nat) (a b : nat * Progress) : Prop :=
  ∃ new,
    errors b.2 = errors a.2 ++ new
    ∧ Forall (fun entry => ∃ prefecture area room_type e,
                             entry = ChartFailed prefecture area room_type e) new
    ∧ (a.1 ≤ b.1)%nat
    ∧ charts_generated b.2 = (charts_generated a.2 + (b.1 - a.1))%nat
    ∧ ((b.1 - a.1) + 2 * length new = 2 * k)%nat
    ∧ prefectures_completed b.2 = prefectures_completed a.2
    ∧ total_records_done b.2 = total_records_done a.2.

(** The file [transform_and_save_data] writes for a frame with rows. *)
Definition csv_of (entry : string * Frame) : option Saved :=
  if frame_empty entry.2 then None
  else Some {| csv_filename :=
                 (processed_data_dir +:+ "/" +:+ entry.1 +:+ "_api_processed.csv")%string;
               csv_rows := frame_rows entry.2 |}.

(** * Properties *)

(** ** The Unicode tables *)

Lemma decimal_in_Some zs c d :
  decimal_in zs c = Some d → ∃ z, z ∈ zs ∧ z ≤ c ∧ c < z + 10 ∧ d = c - z.
Proof.
  induction zs as [|z zs IH]; simpl; [done|].
  destruct ((z <=? c) && (c <? z + 10)) eqn:E.
  - intros [= <-]. apply andb_true_iff in E as [H1 H2].
    exists z. split; [left|]. split; [by apply N.leb_le|].
    split; [by apply N.ltb_lt|done].
  - intros H. destruct (IH H) as (z' & Hin & Hrest).
    exists z'. split; [by right|done].
Qed.

Lemma decimal_in_None_range lo hi zs c :
  lo ≤ c → c ≤ hi →
  forallb (fun z => (hi <? z) || (z + 10 <=? lo)) zs = true →
  decimal_in zs c = None.
Proof.
  intros Hlo Hhi. induction zs as [|z zs IH]; simpl; [done|].
  intros [Hz Hzs]%andb_true_iff.
  rewrite (IH Hzs).
  destruct ((z <=? c) && (c <? z + 10)) eqn:E; [|done].
  apply andb_true_iff in E as [H1%N.leb_le H2%N.ltb_lt].
  apply orb_true_iff in Hz as [H%N.ltb_lt | H%N.leb_le]; lia.
Qed.

Lemma decimal_lt_10 c d : Py_UNICODE_TODECIMAL c = Some d → d < 10.
Proof.
  intros H. apply decimal_in_Some in H as (z & _ & H1 & H2 & ->). lia.
Qed.

Lemma decimal_zeros_ascii z : z ∈ decimal_zeros → z = 0x30 ∨ 127 ≤ z.
Proof.
  revert z. apply Forall_forall.
  unfold decimal_zeros.
  repeat (apply Forall_cons; split; [first [by left | right; by vm_compute]|]).
  apply Forall_nil_2.
Qed.

Lemma decimal_ascii c d :
  c < 127 → Py_UNICODE_TODECIMAL c = Some d → ascii_digit c = Some d.
Proof.
  intros Hc H. apply decimal_in_Some in H as (z & Hin & H1 & H2 & ->).
  apply decimal_zeros_ascii in Hin as [-> | Hz]; [|lia].
  unfold ascii_digit.
  replace ((48 <=? c) && (c <=? 57)) with true; [done|].
  symmetry. apply andb_true_iff. split; apply N.leb_le; lia.
Qed.

Lemma space_not_decimal c :
  Py_UNICODE_ISSPACE c = true → Py_UNICODE_TODECIMAL c = None.
Proof.
  unfold Py_UNICODE_ISSPACE, Py_UNICODE_TODECIMAL.
  rewrite !orb_true_iff, !andb_true_iff, !N.leb_le, !N.eqb_eq.
  intros H.
  repeat match goal with H : _ ∨ _ |- _ => destruct H as [H | H] end.
  - destruct H. by apply (decimal_in_None_range 0x09 0x0D).
  - destruct H. by apply (decimal_in_None_range 0x1C 0x20).
  - by subst.
  - by subst.
  - by subst.
  - destruct H. by apply (decimal_in_None_range 0x2000 0x200A).
  - by subst.
  - by subst.
  - by subst.
  - by subst.
  - by subst.
Qed.

Lemma ascii_digit_range c d : ascii_digit c = Some d → 0x30 ≤ c ∧ c ≤ 0x39 ∧ d = c - 0x30.
Proof.
  unfold ascii_digit.
  destruct ((48 <=? c) && (c <=? 57)) eqn:E; [|done].
  apply andb_true_iff in E as [H1%N.leb_le H2%N.leb_le].
  intros [= <-]. done.
Qed.

Lemma transform_char_decimal c d :
  Py_UNICODE_TODECIMAL c = Some d → ascii_digit (transform_char c) = Some d.
Proof.
  intros H. unfold transform_char.
  destruct (c <? 127) eqn:E.
  - apply N.ltb_lt in E. by apply decimal_ascii.
  - destruct (Py_UNICODE_ISSPACE c) eqn:Hs.
    + apply space_not_decimal in Hs. congruence.
    + rewrite H. pose proof (decimal_lt_10 _ _ H) as Hd.
      unfold ascii_digit.
      replace ((48 <=? 48 + d) && (48 + d <=? 57)) with true.
      * f_equal. lia.
      * symmetry. apply andb_true_iff. split; apply N.leb_le; lia.
Qed.

(** ** The built-ins *)

Lemma try_except_Ret {A} (body : res A) (v : A) :
  ∃ r, try_except body (Ret v) = Ret r.
Proof. destruct body; simpl; eauto. Qed.

Lemma forallb_filter (f : N → bool) (s : str) : forallb f (List.filter f s) = true.
Proof.
  induction s as [|c s IH]; simpl; [done|].
  destruct (f c) eqn:E; simpl; [by rewrite E|done].
Qed.

Lemma long_digits_decimal ds acc :
  forallb isdecimal ds = true →
  long_digits acc (transform_decimal_and_space ds)
  = Some (foldl (fun a c => a * 10 + default 0 (Py_UNICODE_TODECIMAL c)) acc ds, []).
Proof.
  revert acc. induction ds as [|c ds IH]; intros acc; simpl; [done|].
  intros [Hc Hds]%andb_true_iff. unfold isdecimal in Hc.
  destruct (Py_UNICODE_TODECIMAL c) as [d|] eqn:E; [|done].
  rewrite (transform_char_decimal _ _ E). simpl.
  by apply IH.
Qed.

(** [int] on a non-empty string of decimal digits is the number the
    digits write. *)
Lemma py_int_decimal ds :
  ds ≠ [] → forallb isdecimal ds = true →
  py_int ds = Ret (Z.of_N (decimal_value ds)).
Proof.
  destruct ds as [|c ds]; [done|]. intros _ H.
  simpl in H. apply andb_true_iff in H as [Hc Hds].
  unfold isdecimal in Hc.
  destruct (Py_UNICODE_TODECIMAL c) as [d|] eqn:E; [|done].
  pose proof (transform_char_decimal _ _ E) as Hd.
  pose proof (ascii_digit_range _ _ Hd) as (H1 & H2 & _).
  unfold py_int, long_from_string, decimal_value. simpl.
  set (c' := transform_char c) in *.
  assert (Py_ISSPACE c' = false) as ->.
  { unfold Py_ISSPACE. apply orb_false_iff. split.
    - apply andb_false_iff. right. apply N.leb_gt. lia.
    - apply N.eqb_neq. lia. }
  assert ((c' =? 43) = false) as -> by (apply N.eqb_neq; lia).
  assert ((c' =? 45) = false) as -> by (apply N.eqb_neq; lia).
  rewrite Hd. fold (transform_decimal_and_space ds).
  rewrite (long_digits_decimal _ _ Hds). simpl. rewrite E. done.
Qed.


(** ** The field normalisers *)

Lemma contains_cons p a s :
  contains p (a :: s) = startswith p (a :: s) || contains p s.
Proof. done. Qed.

Lemma search_year_Some s g :
  search_year s = Some g →
  ∃ a b c d, g = [a; b; c; d] ∧ forallb isdecimal g = true ∧ contains (g ++ [nen]) s = true.
Proof.
  induction s as [|a s IH]; [done|].
  cbn [search_year].
  destruct s as [|b [|c [|d [|e s']]]]; try done.
  destruct (isdecimal a && isdecimal b && isdecimal c && isdecimal d && (e =? nen)) eqn:E.
  - intros [= <-]. exists a, b, c, d.
    repeat (apply andb_true_iff in E as [E ?]).
    split; [done|]. split.
    + simpl. by rewrite E, H2, H1, H0.
    + apply N.eqb_eq in H as ->. cbn [contains startswith app].
      by rewrite !N.eqb_refl.
  - intros H. destruct (IH H) as (a' & b' & c' & d' & -> & Hd & Hc).
    exists a', b', c', d'. split; [done|]. split; [done|].
    rewrite contains_cons, Hc. apply orb_true_r.
Qed.

Lemma extract_year_from_period_spec period :
  extract_year_from_period period = Ret (period_year period).
Proof.
  destruct period as [|s]; [done|].
  unfold extract_year_from_period, period_year. simpl.
  destruct (search_year s) as [g|] eqn:E; [|done].
  destruct (search_year_Some _ _ E) as (a & b & c & d & -> & Hd & _).
  change (try_except (y ← py_int [a; b; c; d]; Ret (Some y)) (Ret None)
          = Ret (Some (Z.of_N (decimal_value [a; b; c; d])))).
  by rewrite py_int_decimal.
Qed.

Lemma clean_price_spec s : clean_price (VStr s) = Ret (price_of s).
Proof.
  unfold clean_price, price_of, py_str. simpl.
  destruct (bool_decide (s = [])) eqn:Es; simpl.
  - apply bool_decide_eq_true in Es as ->. done.
  - pose proof (forallb_filter isdecimal s) as Hall.
    unfold keep. destruct (List.filter isdecimal s) as [|d ds] eqn:E; [done|].
    rewrite bool_decide_eq_false_2 by done.
    change (try_except (p ← py_int (d :: ds); Ret (Some p)) (Ret None)
            = Ret (Some (Z.of_N (decimal_value (d :: ds))))).
    by rewrite py_int_decimal.
Qed.

Lemma room_type_mapping_categories k v :
  room_type_mapping !! k = Some v → v ∈ room_categories.
Proof.
  intros H. apply elem_of_list_to_map_2 in H.
  eapply (proj1 (Forall_forall (fun kv : str * str => kv.2 ∈ room_categories) _)) in H;
    [exact H|].
  apply (bool_decide_unpack _). by vm_compute.
Qed.

Lemma standardize_room_type_category v :
  ∃ c, standardize_room_type v = Ret c ∧ c ∈ room_categories.
Proof.
  assert (∀ x : str, bool_decide (x ∈ room_categories) = true →
          ∃ c, Ret x = Ret c ∧ c ∈ room_categories) as Hlit.
  { intros x Hx. exists x. split; [done|]. by apply bool_decide_eq_true in Hx. }
  unfold standardize_room_type. destruct v as [|s].
  - apply Hlit. by vm_compute.
  - destruct (negb (truthy (VStr s))); [apply Hlit; by vm_compute|].
    destruct (room_type_mapping !! strip s) as [c|] eqn:E.
    + exists c. split; [done|]. by eapply room_type_mapping_categories.
    + repeat match goal with
             | |- context [if ?b then _ else _] => destruct b
             end; apply Hlit; by vm_compute.
Qed.

Lemma clean_price_Ret v : ∃ p, clean_price v = Ret p.
Proof. apply try_except_Ret. Qed.

Lemma clean_area_Ret v : ∃ a, clean_area v = Ret a.
Proof. apply try_except_Ret. Qed.

Lemma extract_building_age_Ret v ty : ∃ g, extract_building_age v ty = Ret g.
Proof. apply try_except_Ret. Qed.

(** ** The record transformer *)

(** [transform_api_record] returns for every record; the year it emits is
    the parsed one and the other fields are what the normalisers return. *)
Lemma transform_api_record_Ret r :
  ∃ p f a g,
    clean_price (get r "TradePrice" (VStr [])) = Ret p
    ∧ standardize_room_type (get r "FloorPlan" (VStr [])) = Ret f
    ∧ clean_area (get r "Area" (VStr [])) = Ret a
    ∧ extract_building_age (get r "BuildingYear" (VStr []))
        (or_int (period_year (get r "Period" (VStr []))) 2024) = Ret g
    ∧ transform_api_record r
      = Ret {| kind := get r "Type" (VStr []);
               prefecture := get r "Prefecture" (VStr []);
               municipality := get r "Municipality" (VStr []);
               district := get r "DistrictName" (VStr []);
               station_name := VStr [];
               station_distance := VStr [];
               price := p;
               floor_plan := f;
               area := a;
               building_year := get r "BuildingYear" (VStr []);
               period := get r "Period" (VStr []);
               year := period_year (get r "Period" (VStr []));
               age := g |}.
Proof.
  destruct (clean_price_Ret (get r "TradePrice" (VStr []))) as [p Hp].
  destruct (standardize_room_type_category (get r "FloorPlan" (VStr []))) as (f & Hf & _).
  destruct (clean_area_Ret (get r "Area" (VStr []))) as [a Ha].
  destruct (extract_building_age_Ret (get r "BuildingYear" (VStr []))
              (or_int (period_year (get r "Period" (VStr []))) 2024)) as [g Hg].
  exists p, f, a, g. repeat (split; [done|]).
  unfold transform_api_record.
  rewrite extract_year_from_period_spec. cbn [mbind res_bind].
  rewrite Hp. cbn [mbind res_bind].
  rewrite Hf. cbn [mbind res_bind].
  rewrite Ha. cbn [mbind res_bind].
  rewrite Hg. done.
Qed.

(** ** Floor-plan categories *)

(** C2. For every string input (in particular every non-empty one)
    [standardize_room_type] returns, without raising, one of the seven
    categories １Ｒ, １Ｋ, １ＬＤＫ, ２ＬＤＫ, ３ＬＤＫ, ４ＬＤＫ, その他; the
    label "１ＤＫ" gives "１Ｋ" and "studio-mini" gives "その他". *)
Theorem standardize_room_type_coverage :
  (∀ s : str, ∃ c, standardize_room_type (VStr s) = Ret c ∧ c ∈ room_categories)
  ∧ standardize_room_type (VStr (lit "１ＤＫ")) = Ret (lit "１Ｋ")
  ∧ standardize_room_type (VStr (lit "studio-mini")) = Ret (lit "その他").
Proof.
  split; [|split; by vm_compute].
  intros s. apply standardize_room_type_category.
Qed.

(** C9. On the empty string [standardize_room_type] returns その他, and a
    record without a floor-plan field is passed on as the empty string and
    so gets the category その他. *)
Theorem standardize_room_type_empty :
  standardize_room_type (VStr []) = Ret (lit "その他")
  ∧ ∀ r : RawRecord, r !! "FloorPlan" = None →
      get r "FloorPlan" (VStr []) = VStr []
      ∧ ∃ t, transform_api_record r = Ret t ∧ floor_plan t = lit "その他".
Proof.
  split; [by vm_compute|].
  intros r Hr.
  assert (get r "FloorPlan" (VStr []) = VStr []) as Hget
    by (unfold get; by rewrite Hr).
  split; [done|].
  destruct (transform_api_record_Ret r) as (p & f & a & g & _ & Hf & _ & _ & ->).
  eexists. split; [done|]. simpl.
  rewrite Hget in Hf. vm_compute in Hf. by injection Hf as <-.
Qed.

Lemma standardize_room_type_empty_witness :
  ∃ t, transform_api_record (record_of [("Type", "土地"); ("TradePrice", "100")]) = Ret t
       ∧ floor_plan t = lit "その他".
Proof.
  destruct standardize_room_type_empty as [_ H].
  destruct (H (record_of [("Type", "土地"); ("TradePrice", "100")])) as [_ Ht];
    [by vm_compute|].
  exact Ht.
Defined.

(** ** Price parser *)


(** ** Totality of the field normalisers *)

(** C7. On every string each field normaliser (period-year parser,
    building-age deriver, floor-plan categoriser, price parser, area
    parser) returns a value or [None] and does not raise; a conversion
    that fails inside is caught and replaced by [None]. *)
Theorem field_normalizers_total :
  (∀ s : str, ∃ y : option Z, extract_year_from_period (VStr s) = Ret y)
  ∧ (∀ (s : str) (ty : Z), ∃ g : option Z, extract_building_age (VStr s) ty = Ret g)
  ∧ (∀ s : str, ∃ c : str, standardize_room_type (VStr s) = Ret c)
  ∧ (∀ s : str, ∃ p : option Z, clean_price (VStr s) = Ret p)
  ∧ (∀ s : str, ∃ a : option Q, clean_area (VStr s) = Ret a)
  ∧ (py_int (remove_char nen (lit "平成15年")) = Raise ValueError
     ∧ extract_building_age (VStr (lit "平成15年")) 2024 = Ret None)
  ∧ (py_float (lit "1.2.3") = Raise ValueError
     ∧ clean_area (VStr (lit "1.2.3")) = Ret None).
Proof.
  split; [intros s; eexists; apply extract_year_from_period_spec|].
  split; [intros s ty; apply extract_building_age_Ret|].
  split; [intros s; destruct (standardize_room_type_category (VStr s)) as (c & Hc & _); eauto|].
  split; [intros s; apply clean_price_Ret|].
  split; [intros s; apply clean_area_Ret|].
  split; split; by vm_compute.
Qed.

(** ** Pass-through fields *)

(** C8, as the code has it: the emitted prefecture, municipality and
    district are the raw values unchanged (the empty string when the field
    is missing); no white space is trimmed. *)
Theorem transform_passthrough_fields (r : RawRecord) :
  ∃ t, transform_api_record r = Ret t
       ∧ prefecture t = get r "Prefecture" (VStr [])
       ∧ municipality t = get r "Municipality" (VStr [])
       ∧ district t = get r "DistrictName" (VStr []).
Proof.
  destruct (transform_api_record_Ret r) as (p & f & a & g & _ & _ & _ & _ & ->).
  eexists. split; [done|]. done.
Qed.

(** C8 fails as stated: a prefecture with surrounding blanks is emitted
    with its blanks, not trimmed. *)
Lemma transform_prefecture_not_trimmed :
  ∃ t, transform_api_record (record_of [("Prefecture", " 東京都 ")]) = Ret t
       ∧ prefecture t = VStr (lit " 東京都 ")
       ∧ strip (lit " 東京都 ") = lit "東京都"
       ∧ lit " 東京都 " ≠ lit "東京都".
Proof.
  eexists. split; [by vm_compute|]. repeat split; by vm_compute.
Qed.

(** ** Building age *)

Lemma contains_singleton c s : contains [c] s = true ↔ c ∈ s.
Proof.
  induction s as [|a s IH].
  - split; [done|]. by intros ?%elem_of_nil.
  - rewrite contains_cons, orb_true_iff, IH, elem_of_cons.
    cbn [startswith]. rewrite andb_true_r, N.eqb_eq. done.
Qed.

Lemma truthy_VStr s : truthy (VStr s) = true ↔ s ≠ [].
Proof.
  unfold truthy. rewrite negb_true_iff, bool_decide_eq_false. done.
Qed.

(** The age derived from a label that holds the marker 年 and whose
    other characters convert to the integer [n]. *)
Lemma extract_building_age_parsed s ty n :
  nen ∈ s → py_int (remove_char nen s) = Ret n →
  extract_building_age (VStr s) ty = Ret (Some (Z.max 0 (ty - n))).
Proof.
  intros Hin Hn. unfold extract_building_age.
  assert (truthy (VStr s) = true) as ->.
  { apply truthy_VStr. intros ->. by apply elem_of_nil in Hin. }
  apply contains_singleton in Hin as ->. cbn [andb].
  rewrite Hn. done.
Qed.

Lemma extract_building_age_unparsed s ty e :
  py_int (remove_char nen s) = Raise e →
  extract_building_age (VStr s) ty = Ret None.
Proof.
  intros Hn. unfold extract_building_age.
  destruct (truthy (VStr s) && contains [nen] s); [|done].
  rewrite Hn. done.
Qed.

Lemma extract_building_age_nonneg v ty g :
  extract_building_age v ty = Ret (Some g) → (0 ≤ g)%Z.
Proof.
  unfold extract_building_age. destruct v as [|s]; [done|].
  destruct (truthy (VStr s) && contains [nen] s); [|done].
  destruct (py_int (remove_char nen s)) as [n|e]; [|done].
  cbn. intros [= <-]. lia.
Qed.

Lemma isdecimal_not_nen c : isdecimal c = true → (c =? nen) = false.
Proof.
  intros H. apply N.eqb_neq. intros ->. by vm_compute in H.
Qed.

(** C5, as the code has it: for a label that is exactly a four-digit year
    followed by 年, and every transaction year, the building age is
    [max 0 (transaction_year - built_year)]; every age returned is
    non-negative; the age is [None] for the empty label and for a label
    whose text without 年 does not convert to an integer. *)
Theorem extract_building_age_four_digit_label :
  (∀ (a b c d : N) (ty : Z),
     isdecimal a = true → isdecimal b = true →
     isdecimal c = true → isdecimal d = true →
     extract_building_age (VStr [a; b; c; d; nen]) ty
     = Ret (Some (Z.max 0 (ty - Z.of_N (decimal_value [a; b; c; d])))))
  ∧ (∀ (v : value) (ty g : Z), extract_building_age v ty = Ret (Some g) → (0 ≤ g)%Z)
  ∧ (∀ ty : Z, extract_building_age (VStr []) ty = Ret None)
  ∧ (∀ (s : str) (ty : Z) (e : exn),
       py_int (remove_char nen s) = Raise e →
       extract_building_age (VStr s) ty = Ret None).
Proof.
  split; [|split; [apply extract_building_age_nonneg|split;
    [done|apply extract_building_age_unparsed]]].
  intros a b c d ty Ha Hb Hc Hd.
  apply extract_building_age_parsed.
  - set_solver.
  - assert (remove_char nen [a; b; c; d; nen] = [a; b; c; d]) as ->.
    { unfold remove_char. cbn [List.filter].
      rewrite !isdecimal_not_nen, N.eqb_refl by done. done. }
    apply py_int_decimal; [done|].
    cbn [forallb]. by rewrite Ha, Hb, Hc, Hd.
Qed.

Lemma extract_building_age_four_digit_label_witness :
  extract_building_age (VStr (lit "2030年")) 2024 = Ret (Some 0%Z)
  ∧ extract_building_age (VStr (lit "２００３年")) 2024 = Ret (Some 21%Z).
Proof.
  destruct extract_building_age_four_digit_label as [H _].
  split.
  - exact (H 0x32 0x30 0x33 0x30 2024%Z eq_refl eq_refl eq_refl eq_refl).
  - exact (H 0xFF12 0xFF10 0xFF10 0xFF13 2024%Z eq_refl eq_refl eq_refl eq_refl).
Defined.

(** C5 fails as stated: the label "2003年築" contains the four-digit year
    2003 followed by 年, yet the age is [None], not 21. *)
Lemma building_age_label_with_suffix :
  search_year (lit "2003年築") = Some (lit "2003")
  ∧ contains (lit "2003年") (lit "2003年築") = true
  ∧ extract_building_age (VStr (lit "2003年築")) 2024 = Ret None
  ∧ extract_building_age (VStr (lit "2003年")) 2024 = Ret (Some 21%Z).
Proof. repeat split; by vm_compute. Qed.




(** ** Transaction year and the fallback year *)

Lemma or_int_None b : or_int None b = b.
Proof. done. Qed.

Lemma or_int_Some y b : y ≠ 0%Z → or_int (Some y) b = y.
Proof.
  intros Hy. unfold or_int, truthy_int.
  by rewrite (proj2 (Z.eqb_neq y 0) Hy).
Qed.

(** C4, as the code has it: the emitted transaction year is exactly the
    result of parsing the period field ([None] when the parse fails).
    The fallback year is the constant 2024 written in the transformer; it
    is the year of the building-age derivation when the parse fails, a
    parsed year other than 0 is the year of that derivation, and the
    fallback never is the emitted transaction year. *)
Theorem transaction_year_is_parsed_year (r : RawRecord) :
  ∃ t, transform_api_record r = Ret t
       ∧ extract_year_from_period (get r "Period" (VStr [])) = Ret (year t)
       ∧ (year t = None →
          extract_building_age (get r "BuildingYear" (VStr [])) 2024 = Ret (age t))
       ∧ (∀ y, year t = Some y → y ≠ 0%Z →
          extract_building_age (get r "BuildingYear" (VStr [])) y = Ret (age t)).
Proof.
  destruct (transform_api_record_Ret r) as (p & f & a & g & _ & _ & _ & Hg & ->).
  eexists. split; [done|]. cbn [year age].
  split; [apply extract_year_from_period_spec|].
  split.
  - intros Hy. by rewrite Hy, or_int_None in Hg.
  - intros y Hy Hy0. by rewrite Hy, or_int_Some in Hg.
Qed.

Lemma transaction_year_is_parsed_year_witness :
  ∃ t, transform_api_record
         (record_of [("Period", "2024年第1四半期"); ("BuildingYear", "2003年")]) = Ret t
       ∧ year t = Some 2024%Z ∧ age t = Some 21%Z.
Proof.
  destruct (transaction_year_is_parsed_year
              (record_of [("Period", "2024年第1四半期"); ("BuildingYear", "2003年")]))
    as (t & Ht & Hy & _ & Hage).
  exists t. split; [exact Ht|].
  assert (extract_year_from_period
            (get (record_of [("Period", "2024年第1四半期"); ("BuildingYear", "2003年")])
                 "Period" (VStr [])) = Ret (Some 2024%Z)) as Ey by (by vm_compute).
  assert (extract_building_age
            (get (record_of [("Period", "2024年第1四半期"); ("BuildingYear", "2003年")])
                 "BuildingYear" (VStr [])) 2024 = Ret (Some 21%Z)) as Eg by (by vm_compute).
  assert (year t = Some 2024%Z) as Hyear.
  { rewrite Ey in Hy. injection Hy as Hy. by symmetry. }
  split; [exact Hyear|].
  specialize (Hage 2024%Z Hyear ltac:(done)).
  rewrite Eg in Hage. injection Hage as Hage. by symmetry.
Defined.

(** C4 fails as stated.  The period "0000年第1四半期" parses, to the year
    0, and the building age is still derived from the fallback 2024 and not
    from the parsed year; and the fallback is not an argument of the
    transformer: with an unparseable period the age is that of the year
    2024. *)
Lemma fallback_year_used_after_successful_parse :
  (∃ t, transform_api_record
          (record_of [("Period", "0000年第1四半期"); ("BuildingYear", "2000年")]) = Ret t
        ∧ extract_year_from_period (VStr (lit "0000年第1四半期")) = Ret (Some 0%Z)
        ∧ year t = Some 0%Z
        ∧ age t = Some 24%Z
        ∧ extract_building_age (VStr (lit "2000年")) 0 = Ret (Some 0%Z)
        ∧ extract_building_age (VStr (lit "2000年")) 2024 = Ret (Some 24%Z))
  ∧ (∃ t, transform_api_record
            (record_of [("Period", "不明"); ("BuildingYear", "2000年")]) = Ret t
          ∧ year t = None
          ∧ age t = Some 24%Z).
Proof.
  split; eexists; (split; [by vm_compute|]); repeat split; by vm_compute.
Qed.

(** ** The batch transformer *)

Lemma truthy_int_true o : truthy_int o = true ↔ ∃ p, o = Some p ∧ p ≠ 0%Z.
Proof.
  destruct o as [z|]; simpl.
  - rewrite negb_true_iff, Z.eqb_neq. split; [eauto|]. by intros (p & [= <-] & Hp).
  - split; [done|]. by intros (p & [=] & _).
Qed.

Lemma in_valid_property_types_get (r : RawRecord) :
  in_valid_property_types (get r "Type" VNone)
  = in_valid_property_types (get r "Type" (VStr [])).
Proof. unfold get. destruct (r !! "Type"); done. Qed.

Lemma transform_api_record_kind r t :
  transform_api_record r = Ret t → kind t = get r "Type" (VStr []).
Proof.
  destruct (transform_api_record_Ret r) as (p & f & a & g & _ & _ & _ & _ & ->).
  by intros [= <-].
Qed.

Lemma kept_test t :
  kept t ↔
  in_valid_property_types (kind t) = true
  ∧ truthy_int (price t) && truthy_int (year t) = true.
Proof.
  unfold kept. rewrite andb_true_iff, !truthy_int_true. done.
Qed.

Lemma kept_admissible t : kept t → admissible t.
Proof.
  intros (Hk & (p & Hp & _) & (y & Hy & _)).
  unfold admissible. rewrite Hp, Hy. eauto.
Qed.

(** C1, as the code has it: for every batch, [transform_api_data] returns
    exactly the transformed records whose property type is in the valid set
    and whose price and transaction year are present and not 0.  Every
    emitted record is admissible (price present, year present, type valid);
    an admissible record whose price or year is 0 is dropped. *)
Theorem transform_api_data_keeps_exactly (api_data : list RawRecord) :
  ∃ out, transform_api_data api_data = Ret out
         ∧ Forall admissible out
         ∧ ∀ t, t ∈ out ↔
                ∃ r, r ∈ api_data ∧ transform_api_record r = Ret t ∧ kept t.
Proof.
  induction api_data as [|r rest (out & Hout & Hadm & Hiff)].
  - exists []. split; [done|]. split; [constructor|].
    intros t. split; [by intros ?%elem_of_nil|].
    by intros (r & ?%elem_of_nil & _).
  - cbn [transform_api_data]. rewrite in_valid_property_types_get.
    destruct (transform_api_record_Ret r) as (p & f & a & g & _ & _ & _ & _ & Ht).
    pose proof (transform_api_record_kind _ _ Ht) as Hkind.
    set (t0 := {| kind := get r "Type" (VStr []) |}) in *.
    destruct (in_valid_property_types (get r "Type" (VStr []))) eqn:Hvalid.
    + rewrite Ht, Hout. cbn [mbind res_bind].
      destruct (truthy_int (price t0) && truthy_int (year t0)) eqn:Htest.
      * exists (t0 :: out). split; [done|].
        assert (kept t0) as Hkept by (apply kept_test; by rewrite Hkind).
        split; [constructor; [by apply kept_admissible|done]|].
        intros t. rewrite elem_of_cons, Hiff. split.
        -- intros [-> | (r' & Hr' & Hrest)].
           ++ exists r. split; [left|done].
           ++ exists r'. split; [by right|done].
        -- intros (r' & [-> | Hr']%elem_of_cons & Ht' & Hk).
           ++ left. congruence.
           ++ right. eauto.
      * exists out. split; [done|]. split; [done|].
        intros t. rewrite Hiff. split.
        -- intros (r' & Hr' & Hrest). exists r'. split; [by right|done].
        -- intros (r' & [-> | Hr']%elem_of_cons & Ht' & Hk); [|eauto].
           assert (t = t0) as -> by congruence.
           apply kept_test in Hk as [_ Hk]. congruence.
    + exists out. split; [done|]. split; [done|].
      intros t. rewrite Hiff. split.
      * intros (r' & Hr' & Hrest). exists r'. split; [by right|done].
      * intros (r' & [-> | Hr']%elem_of_cons & Ht' & Hk); [|eauto].
        assert (t = t0) as -> by congruence.
        apply kept_test in Hk as [Hk _]. congruence.
Qed.

(** C1 fails as stated: a record of a valid type with the price "0" and a
    parseable period is transformed into an admissible record, price
    present and equal to 0, and the batch transformer drops it. *)
Lemma zero_price_record_dropped :
  ∃ t, transform_api_record
         (record_of [("Type", "中古マンション等"); ("TradePrice", "0");
                     ("Period", "2024年第1四半期")]) = Ret t
       ∧ price t = Some 0%Z
       ∧ year t = Some 2024%Z
       ∧ admissible t
       ∧ transform_api_data
           [record_of [("Type", "中古マンション等"); ("TradePrice", "0");
                       ("Period", "2024年第1四半期")]] = Ret [].
Proof.
  eexists. split; [by vm_compute|].
  split; [by vm_compute|]. split; [by vm_compute|].
  split; [|by vm_compute].
  split; [by eexists|]. split; [by eexists|]. by vm_compute.
Qed.

(** ** Yearly aggregation *)

Lemma elem_of_insert_key y k ks : k ∈ insert_key y ks ↔ k = y ∨ k ∈ ks.
Proof.
  induction ks as [|a ks IH]; simpl.
  - rewrite list_elem_of_singleton, elem_of_nil. tauto.
  - destruct (y <? a)%Z; [by rewrite elem_of_cons|].
    destruct (y =? a)%Z eqn:E.
    + apply Z.eqb_eq in E as ->. rewrite elem_of_cons. tauto.
    + rewrite !elem_of_cons, IH. tauto.
Qed.

Lemma insert_key_sorted y ks :
  StronglySorted Z.lt ks → StronglySorted Z.lt (insert_key y ks).
Proof.
  induction 1 as [|a ks Hs IH Hall]; simpl; [repeat constructor|].
  destruct (y <? a)%Z eqn:E1.
  - apply Z.ltb_lt in E1. constructor; [by constructor|].
    constructor; [done|]. eapply Forall_impl; [exact Hall|]. simpl. lia.
  - apply Z.ltb_ge in E1. destruct (y =? a)%Z eqn:E2; [by constructor|].
    apply Z.eqb_neq in E2. constructor; [done|].
    apply Forall_forall. intros k [-> | Hk]%elem_of_insert_key; [lia|].
    by eapply Forall_forall in Hall.
Qed.

Lemma elem_of_foldr_insert_key (l : list Z) y : y ∈ foldr insert_key [] l ↔ y ∈ l.
Proof.
  induction l as [|a l IH]; simpl; [done|].
  rewrite elem_of_insert_key, elem_of_cons, IH. done.
Qed.

Lemma group_keys_sorted df : StronglySorted Z.lt (group_keys df).
Proof.
  unfold group_keys. induction (omap year df) as [|a l IH]; simpl.
  - constructor.
  - by apply insert_key_sorted.
Qed.

Lemma elem_of_group_keys df y :
  y ∈ group_keys df ↔ ∃ r, r ∈ df ∧ year r = Some y.
Proof.
  unfold group_keys. by rewrite elem_of_foldr_insert_key, list_elem_of_omap.
Qed.

Lemma series_get_fmap {A} (f : Z → A) (ks : list Z) y :
  series_get ((fun k => (k, f k)) <$> ks) y
  = if decide (y ∈ ks) then Some (f y) else None.
Proof.
  induction ks as [|a ks IH]; [rewrite fmap_nil | rewrite fmap_cons];
    cbn [series_get].
  - destruct (decide (y ∈ [])) as [Hin | _]; [by apply elem_of_nil in Hin|done].
  - destruct (a =? y)%Z eqn:E.
    + apply Z.eqb_eq in E as ->.
      destruct (decide (y ∈ y :: ks)) as [_ | Hn]; [done|].
      exfalso. apply Hn. left.
    + apply Z.eqb_neq in E. rewrite IH.
      destruct (decide (y ∈ ks)) as [Hin | Hin];
        destruct (decide (y ∈ a :: ks)) as [Hin' | Hin']; try done.
      * exfalso. apply Hin'. by right.
      * apply elem_of_cons in Hin' as [-> | ?]; done.
Qed.


Lemma present_prices (l : DataFrame) :
  Forall admissible l →
  present (price <$> l) = omap price l ∧ length (omap price l) = length l.
Proof.
  induction 1 as [|r l ([p Hp] & _) _ [IH1 IH2]]; [done|].
  unfold present in *. rewrite fmap_cons.
  change (omap id (price r :: (price <$> l)))
    with (match price r with
          | Some v => v :: omap id (price <$> l)
          | None => omap id (price <$> l)
          end).
  change (omap price (r :: l))
    with (match price r with
          | Some v => v :: omap price l
          | None => omap price l
          end).
  rewrite Hp, IH1. split; [done|]. cbn [length]. by rewrite IH2.
Qed.


(** The selection made by [generate_single_chart] keeps rows of the
    frame, so a selection of admitted records is made of admitted
    records; the series of a chart that is drawn are the two group-by
    series of its selection. *)
Lemma filter_area_room_admissible df area room_type :
  Forall admissible df → Forall admissible (filter_area_room df area room_type).
Proof.
  intros H. unfold filter_area_room.
  destruct (bool_decide (room_type ≠ lit "ALL"));
    apply Forall_forall; intros r [_ Hr]%list_elem_of_filter;
    by eapply Forall_forall in H.
Qed.

Lemma generate_single_chart_series area room_type df avg cnt :
  generate_single_chart area room_type df = Some (avg, cnt) →
  filter_area_room df area room_type ≠ []
  ∧ avg = groupby mean (filter_area_room df area room_type)
  ∧ cnt = groupby count (filter_area_room df area room_type).
Proof.
  unfold generate_single_chart.
  destruct (filter_area_room df area room_type) as [|r l] eqn:E; [done|].
  rewrite bool_decide_eq_false_2 by done. by intros [= <- <-].
Qed.



(** * Further properties of the code *)

(** ** Floor-plan categoriser *)

Lemma lstrip_nonspace c s :
  Py_UNICODE_ISSPACE c = false → lstrip (c :: s) = c :: s.
Proof. intros H. cbn [lstrip]. by rewrite H. Qed.

Lemma lstrip_head s :
  lstrip s = [] ∨ ∃ c t, lstrip s = c :: t ∧ Py_UNICODE_ISSPACE c = false.
Proof.
  induction s as [|c s IH]; [by left|].
  cbn [lstrip]. destruct (Py_UNICODE_ISSPACE c) eqn:E; [done|].
  right. by exists c, s.
Qed.

Lemma lstrip_idemp s : lstrip (lstrip s) = lstrip s.
Proof.
  destruct (lstrip_head s) as [-> | (c & t & -> & Hc)]; [done|].
  by apply lstrip_nonspace.
Qed.

Lemma lstrip_app_nonspace l c r :
  Py_UNICODE_ISSPACE c = false → lstrip (l ++ c :: r) = lstrip l ++ c :: r.
Proof.
  intros Hc. induction l as [|a l IH].
  - by apply lstrip_nonspace.
  - cbn [app lstrip]. destruct (Py_UNICODE_ISSPACE a); [exact IH|done].
Qed.

Lemma rstrip_idemp s : rstrip (rstrip s) = rstrip s.
Proof. unfold rstrip. by rewrite reverse_involutive, lstrip_idemp. Qed.

Lemma rstrip_cons_nonspace c s :
  Py_UNICODE_ISSPACE c = false → rstrip (c :: s) = c :: rstrip s.
Proof.
  intros Hc. unfold rstrip.
  rewrite reverse_cons, (lstrip_app_nonspace _ c []) by done.
  by rewrite reverse_snoc.
Qed.

Lemma strip_idemp s : strip (strip s) = strip s.
Proof.
  unfold strip.
  destruct (lstrip_head s) as [-> | (c & t & -> & Hc)]; [done|].
  rewrite (rstrip_cons_nonspace c t Hc), (lstrip_nonspace c _ Hc).
  by rewrite (rstrip_cons_nonspace c _ Hc), rstrip_idemp.
Qed.

(** X1. Categorising is idempotent: the category returned for any floor
    plan is itself categorised to the same category. *)
Theorem standardize_room_type_idempotent (v : value) :
  ∃ c, standardize_room_type v = Ret c
       ∧ standardize_room_type (VStr c) = Ret c.
Proof.
  destruct (standardize_room_type_category v) as (c & Hc & Hin).
  exists c. split; [done|].
  clear Hc. revert c Hin. apply Forall_forall. unfold room_categories.
  repeat (apply Forall_cons; split; [by vm_compute|]).
  apply Forall_nil_2.
Qed.

(** X2. White space around a floor-plan label does not change its
    category: a label and the label stripped are categorised alike (a
    label of blanks only like the empty label). *)
Theorem standardize_room_type_strip (s : str) :
  standardize_room_type (VStr s) = standardize_room_type (VStr (strip s)).
Proof.
  unfold standardize_room_type.
  destruct (negb (truthy (VStr s))) eqn:Es.
  - apply negb_true_iff in Es. unfold truthy in Es.
    apply negb_false_iff, bool_decide_eq_true in Es. by subst.
  - destruct (strip s) as [|c t] eqn:E.
    + by vm_compute.
    + assert (negb (truthy (VStr (c :: t))) = false) as -> by done.
      by rewrite <- E, strip_idemp.
Qed.

(** ** Price parser *)

(** X3. The price depends on the decimal digits of the text only: two
    texts with the same digits in the same order have the same price, so
    signs, separators and currency marks are ignored and a leading minus
    sign never gives a negative price. *)
Theorem clean_price_digits_only (s t : str) :
  List.filter isdecimal s = List.filter isdecimal t →
  clean_price (VStr s) = clean_price (VStr t).
Proof.
  intros H. rewrite !clean_price_spec. unfold price_of, keep. by rewrite H.
Qed.

Lemma clean_price_digits_only_witness :
  List.filter isdecimal (lit "-5,000円") = List.filter isdecimal (lit "5000")
  ∧ clean_price (VStr (lit "-5,000円")) = clean_price (VStr (lit "5000")).
Proof.
  assert (List.filter isdecimal (lit "-5,000円") = List.filter isdecimal (lit "5000"))
    as H by (by vm_compute).
  split; [exact H|].
  exact (clean_price_digits_only (lit "-5,000円") (lit "5000") H).
Defined.

(** ** Period-year parser *)

Lemma digit_lt_10 c : default 0 (Py_UNICODE_TODECIMAL c) < 10.
Proof.
  destruct (Py_UNICODE_TODECIMAL c) as [d|] eqn:E; simpl; [|lia].
  by eapply decimal_lt_10.
Qed.

Lemma decimal_value_four a b c d : decimal_value [a; b; c; d] ≤ 9999.
Proof.
  unfold decimal_value. cbn [foldl].
  pose proof (digit_lt_10 a). pose proof (digit_lt_10 b).
  pose proof (digit_lt_10 c). pose proof (digit_lt_10 d). lia.
Qed.

Lemma search_year_complete s a b c d :
  isdecimal a = true → isdecimal b = true →
  isdecimal c = true → isdecimal d = true →
  contains [a; b; c; d; nen] s = true → ∃ g, search_year s = Some g.
Proof.
  intros Ha Hb Hc Hd. induction s as [|x s IH]; [done|].
  rewrite contains_cons. intros [Hst | Hin]%orb_true_iff.
  - destruct s as [|x1 [|x2 [|x3 [|x4 r]]]];
      cbn [startswith] in Hst; rewrite ?andb_false_r in Hst; try done.
    repeat (apply andb_true_iff in Hst as [?%N.eqb_eq Hst]). subst.
    cbn [search_year]. rewrite Ha, Hb, Hc, Hd, N.eqb_refl. cbn. eauto.
  - destruct (IH Hin) as [g Hg].
    destruct s as [|x1 [|x2 [|x3 [|x4 r]]]]; try done.
    cbn [search_year].
    destruct (isdecimal x && isdecimal x1 && isdecimal x2 && isdecimal x3
              && (x4 =? nen)); eauto.
Qed.

Lemma period_year_bounds v y : period_year v = Some y → (0 ≤ y ≤ 9999)%Z.
Proof.
  destruct v as [|s]; [done|]. unfold period_year.
  destruct (search_year s) as [g|] eqn:E; [|done].
  destruct (search_year_Some _ _ E) as (a & b & c & d & -> & _ & _).
  intros [= <-]. pose proof (decimal_value_four a b c d). lia.
Qed.

(** X4. The period parser finds a year exactly when the label contains
    four decimal digits followed by 年, and a year it finds lies between
    0 and 9999. *)
Theorem extract_year_from_period_match (s : str) :
  ((∃ y, extract_year_from_period (VStr s) = Ret (Some y))
   ↔ ∃ a b c d, isdecimal a = true ∧ isdecimal b = true
                ∧ isdecimal c = true ∧ isdecimal d = true
                ∧ contains [a; b; c; d; nen] s = true)
  ∧ (∀ y, extract_year_from_period (VStr s) = Ret (Some y) → (0 ≤ y ≤ 9999)%Z).
Proof.
  rewrite extract_year_from_period_spec. split; [split|].
  - intros [y [= Hy]]. unfold period_year in Hy.
    destruct (search_year s) as [g|] eqn:E; [|done].
    destruct (search_year_Some _ _ E) as (a & b & c & d & -> & Hd & Hc).
    exists a, b, c, d. cbn [forallb] in Hd.
    repeat (apply andb_true_iff in Hd as [? Hd]). done.
  - intros (a & b & c & d & Ha & Hb & Hc & Hd & Hin).
    destruct (search_year_complete s a b c d Ha Hb Hc Hd Hin) as [g Hg].
    eexists. unfold period_year. by rewrite Hg.
  - intros y [= Hy]. by apply (period_year_bounds (VStr s)).
Qed.

(** ** Record transformer *)

Lemma clean_price_nonneg v p : clean_price v = Ret (Some p) → (0 ≤ p)%Z.
Proof.
  destruct v as [|s]; [done|]. rewrite clean_price_spec.
  unfold price_of. destruct (keep isdecimal s); intros [= <-]. lia.
Qed.

Lemma transform_api_record_invariants r t :
  transform_api_record r = Ret t →
  floor_plan t ∈ room_categories
  ∧ (∀ p, price t = Some p → (0 ≤ p)%Z)
  ∧ (∀ y, year t = Some y → (0 ≤ y ≤ 9999)%Z)
  ∧ (∀ g, age t = Some g → (0 ≤ g)%Z).
Proof.
  destruct (transform_api_record_Ret r) as (p & f & a & g & Hp & Hf & _ & Hg & ->).
  intros [= <-]. cbn [floor_plan price year age].
  split.
  { destruct (standardize_room_type_category (get r "FloorPlan" (VStr [])))
      as (f' & Hf' & Hin). congruence. }
  split; [intros p' ->; by eapply clean_price_nonneg|].
  split; [intros y; apply period_year_bounds|].
  intros g' ->. by eapply extract_building_age_nonneg.
Qed.

(** X5. [transform_api_record] returns a record for every raw record,
    whatever fields are missing or [None]; the floor plan of the result is
    one of the seven categories, a present price is at least 0, a present
    transaction year lies between 0 and 9999, a present building age is at
    least 0, and the two station fields are empty. *)
Theorem transform_api_record_total (r : RawRecord) :
  ∃ t, transform_api_record r = Ret t
       ∧ floor_plan t ∈ room_categories
       ∧ (∀ p, price t = Some p → (0 ≤ p)%Z)
       ∧ (∀ y, year t = Some y → (0 ≤ y ≤ 9999)%Z)
       ∧ (∀ g, age t = Some g → (0 ≤ g)%Z)
       ∧ station_name t = VStr [] ∧ station_distance t = VStr [].
Proof.
  destruct (transform_api_record_Ret r) as (p & f & a & g & _ & _ & _ & _ & Ht).
  eexists. split; [exact Ht|].
  destruct (transform_api_record_invariants _ _ Ht) as (H1 & H2 & H3 & H4).
  done.
Qed.

(** ** Batch transformer *)

Lemma transform_api_data_cons r rest t out :
  transform_api_record r = Ret t → transform_api_data rest = Ret out →
  transform_api_data (r :: rest) = Ret (if keep_row t then t :: out else out).
Proof.
  intros Ht Hout. cbn [transform_api_data].
  rewrite in_valid_property_types_get, <- (transform_api_record_kind _ _ Ht).
  unfold keep_row. destruct (in_valid_property_types (kind t)); cbn [andb].
  - rewrite Ht, Hout. cbn [mbind res_bind].
    by destruct (truthy_int (price t) && truthy_int (year t)).
  - done.
Qed.

Lemma transform_api_data_filter api_data :
  ∃ ts, Forall2 (fun r t => transform_api_record r = Ret t) api_data ts
        ∧ transform_api_data api_data = Ret (List.filter keep_row ts).
Proof.
  induction api_data as [|r rest (ts & HF & Hout)].
  - exists []. split; [constructor|done].
  - destruct (transform_api_record_Ret r) as (p & f & a & g & _ & _ & _ & _ & Ht).
    eexists (_ :: ts). split; [constructor; [exact Ht|exact HF]|].
    rewrite (transform_api_data_cons _ _ _ _ Ht Hout). cbn [List.filter].
    by destruct (keep_row _).
Qed.

Lemma Forall2_elem_of_r {A B} (P : A → B → Prop) l k y :
  Forall2 P l k → y ∈ k → ∃ x, x ∈ l ∧ P x y.
Proof.
  induction 1 as [|x y' l k HP _ IH]; [by intros ?%elem_of_nil|].
  intros [-> | Hin]%elem_of_cons.
  - exists x. split; [left|done].
  - destruct (IH Hin) as (x' & Hx' & HP'). exists x'. split; [by right|done].
Qed.

Lemma keep_row_true t :
  keep_row t = true ↔
  in_valid_property_types (kind t) = true
  ∧ (∃ p, price t = Some p ∧ p ≠ 0%Z) ∧ (∃ y, year t = Some y ∧ y ≠ 0%Z).
Proof.
  unfold keep_row. rewrite !andb_true_iff, !truthy_int_true. tauto.
Qed.

Lemma transform_api_data_kept_rows (api_data : list RawRecord) :
  ∃ out, transform_api_data api_data = Ret out
         ∧ Forall (fun t =>
                     in_valid_property_types (kind t) = true
                     ∧ (∃ p, price t = Some p ∧ (1 ≤ p)%Z)
                     ∧ (∃ y, year t = Some y ∧ (1 ≤ y ≤ 9999)%Z)
                     ∧ floor_plan t ∈ room_categories
                     ∧ (∀ g, age t = Some g → (0 ≤ g)%Z)) out.
Proof.
  destruct (transform_api_data_filter api_data) as (ts & HF & Hout).
  eexists. split; [exact Hout|].
  apply Forall_forall. intros t Hin.
  apply list_elem_of_In, filter_In in Hin as [Hin Hkeep].
  apply list_elem_of_In in Hin.
  destruct (Forall2_elem_of_r _ _ _ _ HF Hin) as (r & _ & Ht).
  destruct (transform_api_record_invariants _ _ Ht) as (Hf & Hp & Hy & Hg).
  apply keep_row_true in Hkeep as (Hk & (p & Ep & Hp0) & (y & Ey & Hy0)).
  split; [done|].
  split; [exists p; split; [done|]; specialize (Hp p Ep); lia|].
  split; [exists y; split; [done|]; specialize (Hy y Ey); lia|].
  done.
Qed.

(** X6. Every row of the frame returned by [transform_api_data] has a
    valid property type, a price of at least 1, a transaction year between
    1 and 9999, a floor plan among the seven categories, and a building age
    that is missing or at least 0. *)
Theorem transform_api_data_rows (api_data : list RawRecord) :
  ∃ out, transform_api_data api_data = Ret out
         ∧ Forall (fun t =>
                     in_valid_property_types (kind t) = true
                     ∧ (∃ p, price t = Some p ∧ (1 ≤ p)%Z)
                     ∧ (∃ y, year t = Some y ∧ (1 ≤ y ≤ 9999)%Z)
                     ∧ floor_plan t ∈ room_categories
                     ∧ (∀ g, age t = Some g → (0 ≤ g)%Z)) out.
Proof. apply transform_api_data_kept_rows. Qed.

(** X7. A batch may be transformed in pieces: the frame of two batches
    put end to end is the frame of the first followed by the frame of the
    second. *)
Theorem transform_api_data_app (a b : list RawRecord) :
  ∃ oa ob, transform_api_data a = Ret oa
           ∧ transform_api_data b = Ret ob
           ∧ transform_api_data (a ++ b) = Ret (oa ++ ob).
Proof.
  induction a as [|r a (oa & ob & Ha & Hb & Hab)].
  - destruct (transform_api_data_filter b) as (ts & _ & Hb).
    exists [], (List.filter keep_row ts). done.
  - destruct (transform_api_record_Ret r) as (p & f & ar & g & _ & _ & _ & _ & Ht).
    eexists _, ob. split; [exact (transform_api_data_cons _ _ _ _ Ht Ha)|].
    split; [exact Hb|].
    rewrite <- app_comm_cons, (transform_api_data_cons _ _ _ _ Ht Hab).
    by destruct (keep_row _).
Qed.

(** X8. The frame lists, in the order of the batch and once per
    occurrence, the transformed records that pass the test of the loop; it
    never has more rows than the batch has records. *)
Theorem transform_api_data_order (api_data : list RawRecord) :
  ∃ ts out,
    Forall2 (fun r t => transform_api_record r = Ret t) api_data ts
    ∧ transform_api_data api_data = Ret out
    ∧ out = List.filter keep_row ts
    ∧ (length out ≤ length api_data)%nat.
Proof.
  destruct (transform_api_data_filter api_data) as (ts & HF & Hout).
  exists ts, (List.filter keep_row ts). repeat (split; [done|]).
  rewrite (Forall2_length _ _ _ HF).
  clear. induction ts as [|t ts IH]; [done|].
  cbn [List.filter]. destruct (keep_row t); cbn [length]; lia.
Qed.

(** ** Yearly series *)

Lemma StronglySorted_lt_NoDup (l : list Z) : StronglySorted Z.lt l → NoDup l.
Proof.
  induction 1 as [|a l _ IH Hall]; constructor; [|done].
  intros Hin. eapply Forall_forall in Hall; [|exact Hin]. lia.
Qed.

Lemma count_group sel y :
  Forall admissible sel →
  count (group sel y) = length (filter (fun r => year r = Some y) sel).
Proof.
  intros Hadm.
  assert (Forall admissible (filter (fun r => year r = Some y) sel)) as Hadm'.
  { apply Forall_forall. intros r [_ Hr]%list_elem_of_filter.
    by eapply Forall_forall in Hadm. }
  destruct (present_prices _ Hadm') as [Hpres Hlen].
  unfold count, group. by rewrite Hpres.
Qed.

Lemma sum_list_fmap_plus {A} (f g : A → nat) (l : list A) :
  sum_list ((fun x => f x + g x)%nat <$> l)
  = (sum_list (f <$> l) + sum_list (g <$> l))%nat.
Proof.
  induction l as [|x l IH]; [done|].
  rewrite !fmap_cons. cbn [sum_list_with id]. rewrite IH. lia.
Qed.

Lemma sum_list_indicator (y0 : Z) (ks : list Z) :
  NoDup ks → y0 ∈ ks →
  sum_list ((fun y => if decide (Some y0 = Some y) then 1 else 0)%nat <$> ks) = 1%nat.
Proof.
  induction 1 as [|k ks Hk _ IH]; [by intros ?%elem_of_nil|].
  rewrite fmap_cons. cbn [sum_list_with id].
  intros [-> | Hin]%elem_of_cons.
  - rewrite decide_True by done.
    assert (sum_list ((fun y => if decide (Some k = Some y) then 1 else 0)%nat <$> ks)
            = 0%nat) as ->; [|done].
    clear IH. induction ks as [|a ks IH]; [done|].
    rewrite fmap_cons. cbn [sum_list_with id].
    rewrite decide_False.
    + apply IH. intros ?. apply Hk. by right.
    + intros [= ->]. apply Hk. left.
  - rewrite decide_False; [by rewrite IH|].
    intros [= ->]. done.
Qed.

Lemma sum_list_year_counts (l : DataFrame) (ks : list Z) :
  NoDup ks →
  (∀ r, r ∈ l → ∃ y, year r = Some y ∧ y ∈ ks) →
  sum_list ((fun y => length (filter (fun r => year r = Some y) l)) <$> ks)
  = length l.
Proof.
  intros Hnd. induction l as [|r l IH]; intros Hall.
  - clear. induction ks as [|k ks IH]; [done|].
    rewrite fmap_cons. cbn [sum_list_with id]. by rewrite IH.
  - destruct (Hall r) as (y0 & Hy0 & Hin); [left|].
    assert (∀ y, length (filter (fun r => year r = Some y) (r :: l))
                 = ((if decide (Some y0 = Some y) then 1 else 0)
                    + length (filter (fun r => year r = Some y) l))%nat) as Hc.
    { intros y. rewrite filter_cons, Hy0. by destruct (decide (Some y0 = Some y)). }
    rewrite (list_fmap_ext _
               (fun y => ((if decide (Some y0 = Some y) then 1 else 0)
                          + length (filter (fun r => year r = Some y) l))%nat)
               ks (fun _ y _ => Hc y)).
    rewrite (sum_list_fmap_plus
               (fun y => if decide (Some y0 = Some y) then 1%nat else 0%nat)
               (fun y => length (filter (fun r => year r = Some y) l))).
    rewrite sum_list_indicator by done.
    rewrite IH; [done|]. intros r' Hr'. apply Hall. by right.
Qed.

(** X9. For a selection of admitted records the yearly transaction
    counts add up to the number of selected records: no record is lost and
    none is counted twice. *)
Theorem yearly_counts_sum (sel : DataFrame) :
  Forall admissible sel →
  sum_list ((groupby count sel).*2) = length sel.
Proof.
  intros Hadm. unfold groupby.
  rewrite <- list_fmap_compose.
  rewrite (list_fmap_ext _ (fun y => length (filter (fun r => year r = Some y) sel))
             (group_keys sel)).
  - apply sum_list_year_counts.
    + apply StronglySorted_lt_NoDup, group_keys_sorted.
    + intros r Hr.
      destruct (proj1 (Forall_forall _ _) Hadm r Hr) as (_ & [y Hy] & _).
      exists y. split; [done|]. apply elem_of_group_keys. eauto.
  - intros _ y _. cbn. by apply count_group.
Qed.

Lemma yearly_counts_sum_witness :
  Forall admissible [row 2020 100; row 2021 300; row 2020 200]
  ∧ sum_list ((groupby count [row 2020 100; row 2021 300; row 2020 200]).*2) = 3%nat.
Proof.
  assert (Forall admissible [row 2020 100; row 2021 300; row 2020 200]) as Hadm.
  { repeat constructor; by eexists. }
  split; [exact Hadm|]. exact (yearly_counts_sum _ Hadm).
Defined.

Lemma groupby_entry sel y :
  Forall admissible sel → y ∈ group_keys sel →
  (1 ≤ count (group sel y))%nat ∧ is_Some (mean (group sel y)).
Proof.
  intros Hadm (r & Hr & Hy)%elem_of_group_keys.
  assert (1 ≤ count (group sel y))%nat as Hc.
  { rewrite count_group by done.
    assert (r ∈ filter (fun r => year r = Some y) sel) as Hin
      by (by apply list_elem_of_filter).
    destruct (filter _ sel); [by apply elem_of_nil in Hin|simpl; lia]. }
  split; [done|]. unfold count in Hc. unfold mean.
  destruct (present (group sel y)); [simpl in Hc; lia|eauto].
Qed.

Lemma generate_single_chart_drawn_aux (area room_type : str) (df : DataFrame)
    (avg : Series (option Q)) (cnt : Series nat) :
  Forall admissible df →
  generate_single_chart area room_type df = Some (avg, cnt) →
  avg ≠ [] ∧ cnt ≠ [] ∧ avg.*1 = cnt.*1
  ∧ Forall (fun kv => is_Some kv.2) avg
  ∧ Forall (fun kv => (1 ≤ kv.2)%nat) cnt.
Proof.
  intros Hadm (Hne & -> & ->)%generate_single_chart_series.
  apply (filter_area_room_admissible _ area room_type) in Hadm.
  set (sel := filter_area_room df area room_type) in *.
  assert (group_keys sel ≠ []) as Hkeys.
  { destruct sel as [|r sel'] eqn:E; [done|].
    destruct (proj1 (Forall_forall _ _) Hadm r) as (_ & [y Hy] & _); [left|].
    assert (y ∈ group_keys (r :: sel')) as Hin
      by (apply elem_of_group_keys; exists r; split; [left|done]).
    intros Hnil. rewrite Hnil in Hin. by apply elem_of_nil in Hin. }
  unfold groupby.
  split; [by destruct (group_keys sel)|]. split; [by destruct (group_keys sel)|].
  split.
  { rewrite <- !list_fmap_compose. by apply list_fmap_ext. }
  split; apply Forall_fmap, Forall_forall; intros y Hy; cbn;
    by apply groupby_entry.
Qed.

(** X10. When [generate_single_chart] draws a chart from a frame of
    admitted records (its selection is not empty), the two series are not
    empty and have the same years, every yearly mean is present and every
    yearly count is at least 1; so the maxima taken for the axis limits
    exist. *)
Theorem generate_single_chart_drawn (area room_type : str) (df : DataFrame)
    (avg : Series (option Q)) (cnt : Series nat) :
  Forall admissible df →
  generate_single_chart area room_type df = Some (avg, cnt) →
  avg ≠ [] ∧ cnt ≠ [] ∧ avg.*1 = cnt.*1
  ∧ Forall (fun kv => is_Some kv.2) avg
  ∧ Forall (fun kv => (1 ≤ kv.2)%nat) cnt.
Proof. apply generate_single_chart_drawn_aux. Qed.

Lemma generate_single_chart_drawn_witness :
  ∃ avg cnt,
    generate_single_chart [] (lit "ALL") [row 2020 100; row 2021 300; row 2020 200]
    = Some (avg, cnt)
    ∧ avg ≠ [] ∧ cnt ≠ [] ∧ avg.*1 = cnt.*1.
Proof.
  assert (Forall admissible [row 2020 100; row 2021 300; row 2020 200]) as Hadm.
  { repeat constructor; by eexists. }
  eexists _, _. split; [by vm_compute|].
  destruct (generate_single_chart_drawn [] (lit "ALL") _ _ _ Hadm eq_refl)
    as (H1 & H2 & H3 & _).
  done.
Defined.





Lemma filter_area_room_ALL df area :
  filter_area_room df area (lit "ALL")
  = filter (fun r => municipality r = VStr area) df.
Proof. done. Qed.

Lemma filter_area_room_area df area room_type r :
  r ∈ filter_area_room df area room_type →
  r ∈ filter_area_room df area (lit "ALL").
Proof.
  rewrite filter_area_room_ALL. unfold filter_area_room.
  destruct (bool_decide (room_type ≠ lit "ALL")); [|done].
  rewrite !list_elem_of_filter. tauto.
Qed.

Lemma length_filter_year_mono df area room_type y :
  (length (filter (fun r => year r = Some y) (filter_area_room df area room_type))
   ≤ length (filter (fun r => year r = Some y)
               (filter_area_room df area (lit "ALL"))))%nat.
Proof.
  rewrite filter_area_room_ALL. unfold filter_area_room.
  destruct (bool_decide (room_type ≠ lit "ALL")); [|done].
  induction df as [|r df IH]; [done|].
  rewrite !(filter_cons _ r df).
  destruct (decide (municipality r = VStr area ∧ floor_plan r = room_type))
    as [[Ha Hf] | Hn].
  - rewrite (decide_True (P := municipality r = VStr area)) by done.
    rewrite !(filter_cons _ r).
    destruct (decide (year r = Some y)); cbn [length]; lia.
  - destruct (decide (municipality r = VStr area)); [|done].
    rewrite (filter_cons _ r (filter _ df)).
    destruct (decide (year r = Some y)); cbn [length]; lia.
Qed.

(** X12. In a frame of admitted records, the selection for one room type
    never counts more transactions in a year than the selection of all
    room types of the same area: every year of the room-type series is a
    year of the ["ALL"] series, with a count at least as large. *)
Theorem room_type_count_le_all (df : DataFrame) (area room_type : str) (y : Z) (n : nat) :
  Forall admissible df →
  series_get (groupby count (filter_area_room df area room_type)) y = Some n →
  ∃ n', series_get (groupby count (filter_area_room df area (lit "ALL"))) y = Some n'
        ∧ (n ≤ n')%nat.
Proof.
  intros Hadm. unfold groupby. rewrite !series_get_fmap.
  destruct (decide (y ∈ group_keys (filter_area_room df area room_type)))
    as [Hy|]; [|done].
  intros [= <-].
  apply elem_of_group_keys in Hy as (r & Hr & Hyr).
  rewrite decide_True.
  - eexists. split; [done|].
    rewrite !count_group by (by apply filter_area_room_admissible).
    apply length_filter_year_mono.
  - apply elem_of_group_keys. exists r. split; [|done].
    by eapply filter_area_room_area.
Qed.

Lemma room_type_count_le_all_witness :
  ∃ n', series_get (groupby count
                      (filter_area_room [row 2020 100; row 2021 300; row 2020 200]
                         [] (lit "ALL"))) 2020 = Some n'
        ∧ (2 ≤ n')%nat.
Proof.
  assert (Forall admissible [row 2020 100; row 2021 300; row 2020 200]) as Hadm.
  { repeat constructor; by eexists. }
  destruct (room_type_count_le_all _ [] (lit "その他") 2020 2 Hadm) as (n' & Hn' & Hle);
    [by vm_compute|].
  exists n'. split; [exact Hn'|exact Hle].
Defined.

(** ** Data-quality report *)

Lemma isna_sum_all_present {A} (col : list (option A)) :
  Forall is_Some col → isna_sum col = 0%nat ∧ notna_sum col = length col.
Proof.
  unfold isna_sum, notna_sum.
  induction 1 as [|o col [x ->] _ [IH1 IH2]]; [done|].
  cbn [List.filter length]. by rewrite IH1, IH2.
Qed.

Lemma col_min_max_bounds (lo hi : Z) (col : list (option Z)) :
  col ≠ [] →
  Forall (fun o => ∃ y, o = Some y ∧ (lo ≤ y ≤ hi)%Z) col →
  ∃ a b, col_min col = Some a ∧ col_max col = Some b
         ∧ (lo ≤ a)%Z ∧ (a ≤ b)%Z ∧ (b ≤ hi)%Z
         ∧ Forall (fun o => ∃ y, o = Some y ∧ (a ≤ y ≤ b)%Z) col.
Proof.
  intros Hne Hall. unfold col_min, col_max.
  assert (∃ ys, col = Some <$> ys ∧ Forall (fun y => (lo ≤ y ≤ hi)%Z) ys)
    as (ys & -> & Hys).
  { clear Hne. induction Hall as [|o col (y & -> & Hy) _ (ys & -> & Hys)].
    - by exists [].
    - exists (y :: ys). split; [done|by constructor]. }
  assert (omap id (Some <$> ys) = ys) as ->.
  { clear. induction ys as [|y ys IH]; [done|].
    rewrite fmap_cons. cbn. by f_equal. }
  destruct ys as [|v vs]; [done|]. clear Hall Hne.
  apply Forall_cons in Hys as [Hv Hvs].
  assert ((lo ≤ foldr Z.min v vs ≤ v)%Z ∧ Forall (fun y => (foldr Z.min v vs ≤ y)%Z) vs)
    as [Hmin Hmin'].
  { induction Hvs as [|y vs Hy _ [IH1 IH2]]; [cbn [foldr]; refine (conj _ _); [lia|apply Forall_nil_2]|].
    cbn [foldr]. refine (conj _ _); [lia|]. constructor; [lia|].
    eapply Forall_impl; [exact IH2|]. simpl. lia. }
  assert ((v ≤ foldr Z.max v vs ≤ hi)%Z ∧ Forall (fun y => (y ≤ foldr Z.max v vs)%Z) vs)
    as [Hmax Hmax'].
  { clear Hmin Hmin'.
    induction Hvs as [|y vs Hy _ [IH1 IH2]]; [cbn [foldr]; refine (conj _ _); [lia|apply Forall_nil_2]|].
    cbn [foldr]. refine (conj _ _); [lia|]. constructor; [lia|].
    eapply Forall_impl; [exact IH2|]. simpl. lia. }
  eexists _, _. split; [done|]. split; [done|].
  split; [lia|]. split; [lia|]. split; [lia|].
  rewrite fmap_cons. constructor; [exists v; split; [done|lia]|].
  apply Forall_fmap, Forall_forall. intros y Hy.
  exists y. split; [done|].
  split; [by eapply Forall_forall in Hmin'|by eapply Forall_forall in Hmax'].
Qed.

Lemma value_counts_lookup (col : list str) (c : str) :
  value_counts col !! c
  = match length (filter (fun x => x = c) col) with
    | O => None
    | S n => Some (S n)
    end.
Proof.
  induction col as [|x col IH]; [done|].
  cbn [value_counts foldr]. fold (value_counts col).
  rewrite filter_cons. destruct (decide (x = c)) as [-> | Hne].
  - rewrite lookup_insert_eq, IH. cbn [length].
    by destruct (length (filter (fun x => x = c) col)).
  - by rewrite lookup_insert_ne.
Qed.

(** X13. The data-quality report of the frame [transform_api_data]
    returns: it fails with [KeyError] on the price column exactly when no
    record was kept (the frame then has no column); otherwise it counts
    every row, finds no missing price, no missing room type and no invalid
    year, gives a year range [lo, hi] with 1 ≤ lo ≤ hi ≤ 9999 that holds
    the year of every row, and its room-type distribution only has the
    seven categories, each with a count of at least 1. *)
Theorem validate_after_transform (api_data : list RawRecord) :
  ∃ out, transform_api_data api_data = Ret out
    ∧ match validate_transformed_data (frame_of out) with
      | KeyError column => out = [] ∧ column = lit "取引価格（総額）"
      | Found v =>
          out ≠ []
          ∧ total_records v = length out
          ∧ missing_prices v = 0%nat
          ∧ missing_room_types v = 0%nat
          ∧ valid_years v = length out
          ∧ (∃ lo hi, year_range v = (Some lo, Some hi)
                      ∧ (1 ≤ lo)%Z ∧ (lo ≤ hi)%Z ∧ (hi ≤ 9999)%Z
                      ∧ Forall (fun t => ∃ y, year t = Some y ∧ (lo ≤ y ≤ hi)%Z) out)
          ∧ (∀ c n, room_type_distribution v !! c = Some n →
                    c ∈ room_categories ∧ (1 ≤ n)%nat)
      end.
Proof.
  destruct (transform_api_data_kept_rows api_data) as (out & Hout & Hrows).
  exists out. split; [exact Hout|].
  destruct out as [|t0 out']; [done|].
  set (out := t0 :: out') in *.
  cbn [frame_of validate_transformed_data frame_len total_records missing_prices
       missing_room_types valid_years year_range room_type_distribution].
  fold out.
  split; [done|]. split; [done|].
  assert (Forall is_Some (price <$> out)) as Hprice.
  { apply Forall_fmap. eapply Forall_impl; [exact Hrows|].
    intros t (_ & (p & Hp & _) & _). by exists p. }
  assert (Forall is_Some (year <$> out)) as Hyear.
  { apply Forall_fmap. eapply Forall_impl; [exact Hrows|].
    intros t (_ & _ & (y & Hy & _) & _). by exists y. }
  split; [by apply isna_sum_all_present|].
  split; [apply isna_sum_all_present, Forall_fmap, Forall_true; by eexists|].
  split.
  { destruct (isna_sum_all_present _ Hyear) as [_ ->]. by rewrite length_fmap. }
  split.
  - destruct (col_min_max_bounds 1 9999 (year <$> out)) as (a & b & -> & -> & Ha & Hab & Hb & Hall);
      [done| |].
    { apply Forall_fmap. eapply Forall_impl; [exact Hrows|].
      intros t (_ & _ & (y & Hy & Hb) & _). by exists y. }
    exists a, b. rewrite bool_decide_eq_true_2 by (cbn; lia).
    split; [done|]. repeat (split; [done|]).
    apply Forall_forall. intros t Ht.
    apply (proj1 (Forall_forall _ _) Hall), list_elem_of_fmap. eauto.
  - intros c n. cbn [room_type_distribution]. rewrite value_counts_lookup.
    destruct (length (filter (fun x => x = c) (floor_plan <$> out))) as [|k] eqn:E;
      [done|].
    intros [= <-]. split; [|lia].
    assert (c ∈ filter (fun x => x = c) (floor_plan <$> out)) as Hin.
    { destruct (filter (fun x => x = c) (floor_plan <$> out)) as [|x l] eqn:E';
        [done|].
      assert (x ∈ filter (fun x => x = c) (floor_plan <$> out)) as Hx
        by (rewrite E'; left).
      apply list_elem_of_filter in Hx as [-> _]. left. }
    apply list_elem_of_filter in Hin as [_ Hin].
    apply list_elem_of_fmap in Hin as (t & -> & Ht).
    eapply Forall_forall in Hrows; [|exact Ht]. by destruct Hrows as (_ & _ & _ & ? & _).
Qed.

(** X14. The room-type distribution of a report counts every row once,
    under its floor plan: the entry of a floor plan is the number of rows
    that have it, and a floor plan that no row has gets no entry. *)
Theorem room_type_distribution_counts (rows : list Transformed) (c : str) :
  ∃ v, validate_transformed_data (Columns rows) = Found v
       ∧ total_records v = length rows
       ∧ room_type_distribution v !! c
         = match length (filter (fun r => floor_plan r = c) rows) with
           | O => None
           | S n => Some (S n)
           end.
Proof.
  eexists. split; [done|]. split; [done|].
  cbn [room_type_distribution]. rewrite value_counts_lookup.
  assert (length (filter (fun x => x = c) (floor_plan <$> rows))
          = length (filter (fun r => floor_plan r = c) rows)) as ->; [|done].
  induction rows as [|r rows IH]; [done|].
  rewrite fmap_cons, !filter_cons.
  destruct (decide (floor_plan r = c)); cbn [length]; by rewrite IH.
Qed.

(** ** Age ranges of the viewer *)

Lemma length_filter_partition {A} (P1 P2 P : A → Prop)
    `{!∀ x, Decision (P1 x)} `{!∀ x, Decision (P2 x)} `{!∀ x, Decision (P x)}
    (l : list A) :
  (∀ x, P x ↔ P1 x ∨ P2 x) → (∀ x, P1 x → P2 x → False) →
  (length (filter P1 l) + length (filter P2 l) = length (filter P l))%nat.
Proof.
  intros Hor Hdisj. induction l as [|x l IH]; [done|].
  rewrite !filter_cons.
  destruct (decide (P1 x)) as [Hx1|Hx1], (decide (P2 x)) as [Hx2|Hx2],
    (decide (P x)) as [Hx|Hx]; cbn [length];
    try lia; exfalso; first [by eapply Hdisj | apply Hx, Hor; tauto
                             | apply Hor in Hx; tauto].
Qed.

Lemma age_options_cases r :
  (age_options Within15 r = true ∨ age_options Over15 r = true ↔ is_Some (age r))
  ∧ (age_options Within15 r = true → age_options Over15 r = true → False).
Proof.
  unfold age_options. destruct (age r) as [a|].
  - split.
    + split; [by eexists|]. intros _.
      destruct (a <=? 15)%Z eqn:E; [by left|right].
      apply Z.leb_gt in E. by apply Z.ltb_lt.
    + intros H1%Z.leb_le H2%Z.ltb_lt. lia.
  - split; [|done]. split; [by intros [|]|by intros [? ?]].
Qed.

(** X15. The two age ranges of the viewer split the records of an area
    and layout that have a building age: no record is in both selections,
    a record without a building age is in neither, and the two selections
    together have as many rows as there are records with an age. *)
Theorem age_ranges_partition (df : DataFrame) (selected_area selected_layout : str) :
  (∀ r, r ∈ df_filtered df selected_area selected_layout Within15 →
        r ∉ df_filtered df selected_area selected_layout Over15)
  ∧ (∀ r key, r ∈ df_filtered df selected_area selected_layout key →
              is_Some (age r))
  ∧ (length (df_filtered df selected_area selected_layout Within15)
     + length (df_filtered df selected_area selected_layout Over15)
     = length (filter (fun r => municipality r = VStr selected_area
                                ∧ (selected_layout = lit "All"
                                   ∨ floor_plan r = selected_layout)
                                ∧ is_Some (age r)) df))%nat.
Proof.
  unfold df_filtered.
  destruct (bool_decide (selected_layout = lit "All")) eqn:El.
  - apply bool_decide_eq_true in El.
    split; [|split].
    + intros r [[_ H1] _]%list_elem_of_filter [[_ H2] _]%list_elem_of_filter.
      by eapply age_options_cases.
    + intros r key [[_ H] _]%list_elem_of_filter.
      apply age_options_cases. destruct key; tauto.
    + apply length_filter_partition.
      * intros r. pose proof (proj1 (age_options_cases r)). tauto.
      * intros r [_ H1] [_ H2]. by eapply age_options_cases.
  - apply bool_decide_eq_false in El.
    split; [|split].
    + intros r [(_ & _ & H1) _]%list_elem_of_filter [(_ & _ & H2) _]%list_elem_of_filter.
      by eapply age_options_cases.
    + intros r key [(_ & _ & H) _]%list_elem_of_filter.
      apply age_options_cases. destruct key; tauto.
    + apply length_filter_partition.
      * intros r. pose proof (proj1 (age_options_cases r)). tauto.
      * intros r (_ & _ & H1) (_ & _ & H2). by eapply age_options_cases.
Qed.

(** ** API client *)

(** X16. [test_connection] answers [False] only when an exception that
    [fetch_quarter_data] does not catch escapes from the request; on a
    time-out, a request error, an HTTP error status, an undecodable body
    or a status other than "OK" it answers [True]. *)
Theorem test_connection_false_iff (requests_get : gmap string str → Reply) :
  test_connection requests_get = false
  ↔ requests_get (quarter_params (lit "13") (lit "2024") (lit "1") None) = OtherError.
Proof.
  unfold test_connection, fetch_quarter_data.
  destruct (requests_get _) as [| |code [|st [data|]]|]; try done.
  - destruct (code =? 200)%Z; [|by destruct (_ && _)].
    by destruct (_ && _).
  - destruct (code =? 200)%Z; [|by destruct (_ && _)].
    destruct (bool_decide _); by destruct (_ && _).
  - destruct (code =? 200)%Z; by destruct (_ && _).
Qed.

Lemma get_delete (r : RawRecord) (k key : string) (d : value) :
  k ≠ key → get (delete k r) key d = get r key d.
Proof. intros H. unfold get. by rewrite lookup_delete_ne. Qed.

Lemma get_tag code name y q (r : RawRecord) (key : string) (d : value) :
  key ∉ ["prefecture_code"; "prefecture_name"; "fetch_year"; "fetch_quarter"]%string →
  get (fields (tag code name y q r)) key d = get r key d.
Proof.
  intros H. cbn [tag fields].
  rewrite !get_delete; [done|..]; intros <-; apply H;
    apply (bool_decide_unpack _); by vm_compute.
Qed.

(** X17. The four keys assigned to a fetched record do not touch what
    the transformer reads: the record with its tags is transformed to the
    same result as the record as it was received. *)
Theorem transform_api_record_tag (code name : str) (y q : Z) (r : RawRecord) :
  transform_api_record (fields (tag code name y q r)) = transform_api_record r.
Proof.
  unfold transform_api_record.
  rewrite !get_tag; [done|..]; apply (bool_decide_unpack _); by vm_compute.
Qed.

Lemma fetch_quarter_data_cases rg code y q city :
  (rg (quarter_params code y q city) = OtherError
   ∧ fetch_quarter_data rg code y q city = Raised Uncaught)
  ∨ ∃ data, fetch_quarter_data rg code y q city = Done data.
Proof.
  unfold fetch_quarter_data.
  destruct (rg _) as [| |status_code [|st [data|]]|]; eauto;
    destruct (status_code =? 200)%Z; eauto.
  destruct (bool_decide _); eauto.
Qed.

Lemma progress_bounds (k total : Z) :
  (0 < k ≤ total)%Z →
  (0 < inject_Z k / inject_Z total * 100)%Q
  ∧ (inject_Z k / inject_Z total * 100 <= 100)%Q.
Proof.
  intros [Hk Ht]. destruct total as [|t|t]; try lia.
  unfold Qlt, Qle, Qdiv, Qmult, Qinv, inject_Z. cbn [Qnum Qden].
  rewrite !Z.mul_1_r, ?Pos.mul_1_l, ?Pos.mul_1_r. split; nia.
Qed.

Lemma fetch_cell_cases rg code name total year st q :
  total ≠ 0%Z →
  (∃ params, rg params = OtherError
             ∧ fetch_cell rg code name total year st q = Raised Uncaught)
  ∨ ∃ data,
      fetch_quarter_data rg code (str_of_int year) (str_of_int q) None = Done data
      ∧ fetch_cell rg code name total year st q
        = Done {| all_data := all_data st ++ (tag code name year q <$> data);
                  current_quarter := current_quarter st + 1;
                  requests := requests st
                              ++ [quarter_params code (str_of_int year) (str_of_int q) None];
                  progress_shown :=
                    progress_shown st
                    ++ [(inject_Z (current_quarter st + 1) / inject_Z total * 100)%Q] |}.
Proof.
  intros Ht. unfold fetch_cell, truediv.
  rewrite (proj2 (Z.eqb_neq total 0) Ht). cbn [mbind outcome_bind].
  destruct (fetch_quarter_data_cases rg code (str_of_int year) (str_of_int q) None)
    as [[Hrg ->] | [data ->]]; [left; eauto|right].
  exists data. split; [done|]. cbn [mbind outcome_bind].
  destruct data as [|r data]; [|done].
  rewrite bool_decide_eq_true_2 by done. done.
Qed.

Lemma fetch_cell_invariant rg code name s e total year st q k :
  (0 < total)%Z → (k + 1 ≤ total)%Z →
  (s ≤ year ≤ e)%Z → (1 ≤ q ≤ 4)%Z →
  fetch_invariant rg code name s e total k st →
  (∃ params, rg params = OtherError
             ∧ fetch_cell rg code name total year st q = Raised Uncaught)
  ∨ ∃ st', fetch_cell rg code name total year st q = Done st'
           ∧ fetch_invariant rg code name s e total (k + 1) st'.
Proof.
  intros Ht Hk Hy Hq (Hk0 & Hcur & Hreq & Hlen & Hprog & Hlast & Htag).
  destruct (fetch_cell_cases rg code name total year st q) as [?|(data & Hdata & ->)];
    [lia|by left|right].
  eexists. split; [done|]. unfold fetch_invariant.
  cbn [current_quarter requests progress_shown all_data].
  rewrite !length_app, Hcur, Hreq, Hlen. cbn [length].
  split; [lia|]. split; [done|]. split; [lia|]. split; [lia|].
  split.
  { apply Forall_app. split; [done|]. constructor; [|constructor].
    apply progress_bounds. lia. }
  split.
  { intros _. eexists. split; [apply last_snoc|done]. }
  apply Forall_app. split; [done|].
  apply Forall_fmap, Forall_forall. intros raw Hraw.
  unfold tagged_by. cbn. repeat (split; [done || lia|]).
  exists data, raw. done.
Qed.

Lemma fetch_quarters_invariant rg code name s e total year qs :
  (0 < total)%Z → (s ≤ year ≤ e)%Z → Forall (fun q => (1 ≤ q ≤ 4)%Z) qs →
  ∀ st k,
    (k + Z.of_nat (length qs) ≤ total)%Z →
    fetch_invariant rg code name s e total k st →
    (∃ params, rg params = OtherError
               ∧ for_each (fetch_cell rg code name total year) st qs = Raised Uncaught)
    ∨ ∃ st', for_each (fetch_cell rg code name total year) st qs = Done st'
             ∧ fetch_invariant rg code name s e total (k + Z.of_nat (length qs)) st'.
Proof.
  intros Ht Hy. induction 1 as [|q qs Hq _ IH]; intros st k Hk Hinv.
  - right. exists st. split; [done|]. cbn [length]. by rewrite Z.add_0_r.
  - cbn [length] in Hk. cbn [for_each].
    destruct (fetch_cell_invariant rg code name s e total year st q k)
      as [(params & Hp & ->) | (st1 & -> & Hinv1)]; [lia..|done|done|done| |].
    { left. eauto. }
    cbn [mbind outcome_bind].
    destruct (IH st1 (k + 1)%Z) as [?|(st2 & -> & Hinv2)]; [lia|done|by left|right].
    exists st2. split; [done|].
    cbn [length]. by replace (k + Z.of_nat (S (length qs)))%Z
      with (k + 1 + Z.of_nat (length qs))%Z by lia.
Qed.

Lemma fetch_years_invariant rg code name s e total ys :
  (0 < total)%Z → Forall (fun y => (s ≤ y ≤ e)%Z) ys →
  ∀ st k,
    (k + 4 * Z.of_nat (length ys) ≤ total)%Z →
    fetch_invariant rg code name s e total k st →
    (∃ params, rg params = OtherError
               ∧ for_each (fun st year =>
                             for_each (fetch_cell rg code name total year) st (seqZ 1 4))
                   st ys = Raised Uncaught)
    ∨ ∃ st', for_each (fun st year =>
                         for_each (fetch_cell rg code name total year) st (seqZ 1 4))
               st ys = Done st'
             ∧ fetch_invariant rg code name s e total (k + 4 * Z.of_nat (length ys)) st'.
Proof.
  intros Ht. induction 1 as [|y ys Hy _ IH]; intros st k Hk Hinv.
  - right. exists st. split; [done|]. cbn [length]. by rewrite Z.mul_0_r, Z.add_0_r.
  - cbn [length] in Hk. cbn [for_each].
    destruct (fetch_quarters_invariant rg code name s e total y (seqZ 1 4) Ht Hy)
      with (st := st) (k := k) as [(params & Hp & ->) | (st1 & -> & Hinv1)].
    + apply Forall_forall. intros q Hq%elem_of_seqZ. lia.
    + rewrite length_seqZ. lia.
    + done.
    + left. eauto.
    + cbn [mbind outcome_bind]. rewrite length_seqZ in Hinv1.
      destruct (IH st1 (k + 4)%Z) as [?|(st2 & -> & Hinv2)];
        [lia|done|by left|right].
      exists st2. split; [done|].
      cbn [length]. by replace (k + 4 * Z.of_nat (S (length ys)))%Z
        with (k + 4 + 4 * Z.of_nat (length ys))%Z by lia.
Qed.

Lemma fetch_prefecture_data_cases rg code s e :
  (∃ params, rg params = OtherError
             ∧ fetch_prefecture_data rg code s e = Raised Uncaught)
  ∨ ∃ st, fetch_prefecture_data rg code s e = Done st
          ∧ fetch_invariant rg code (default code (prefecture_names !! code)) s e
              ((e - s + 1) * 4) (Z.max 0 ((e - s + 1) * 4)) st.
Proof.
  unfold fetch_prefecture_data.
  set (name := default code (prefecture_names !! code)).
  set (total := ((e - s + 1) * 4)%Z).
  set (init := {| all_data := []; current_quarter := 0;
                  requests := []; progress_shown := [] |}).
  assert (fetch_invariant rg code name s e total 0 init) as Hinit.
  { unfold fetch_invariant. cbn.
    split; [lia|]. do 3 (split; [done|]). split; [constructor|].
    split; [lia|constructor]. }
  destruct (decide (e + 1 - s ≤ 0)%Z) as [Hle | Hgt].
  - right. exists init.
    assert (seqZ s (e + 1 - s) = []) as ->.
    { unfold seqZ. by replace (Z.to_nat (e + 1 - s)) with 0%nat by lia. }
    split; [done|]. by replace (Z.max 0 total) with 0%Z by lia.
  - destruct (fetch_years_invariant rg code name s e total (seqZ s (e + 1 - s)))
      with (st := init) (k := 0%Z) as [H | (st & Hst & Hinv)].
    + lia.
    + apply Forall_forall. intros y Hy%elem_of_seqZ. lia.
    + rewrite length_seqZ. lia.
    + done.
    + by left.
    + right. exists st. split; [done|].
      rewrite length_seqZ in Hinv.
      by replace (Z.max 0 total) with (0 + 4 * Z.of_nat (Z.to_nat (e + 1 - s)))%Z by lia.
Qed.

Lemma progress_complete (total : Z) :
  (0 < total)%Z → (inject_Z total / inject_Z total * 100 == 100)%Q.
Proof.
  intros Ht. destruct total as [|t|t]; try lia.
  unfold Qeq, Qdiv, Qmult, Qinv, inject_Z. cbn [Qnum Qden].
  rewrite ?Z.mul_1_r, ?Pos.mul_1_l, ?Pos.mul_1_r. lia.
Qed.

(** X18. [fetch_prefecture_data] never divides by zero in its progress
    display, whatever the two years are: it fails only when a request
    raises an exception that is not caught.  When it returns it has sent
    [max(0, (end_year - start_year + 1) * 4)] requests, one progress value
    per request, each above 0 and at most 100 per cent, the last one being
    100 per cent. *)
Theorem fetch_prefecture_data_progress
    (requests_get : gmap string str → Reply) (code : str) (start_year end_year : Z) :
  (∃ params, requests_get params = OtherError
             ∧ fetch_prefecture_data requests_get code start_year end_year
               = Raised Uncaught)
  ∨ ∃ st, fetch_prefecture_data requests_get code start_year end_year = Done st
          ∧ length (requests st) = Z.to_nat ((end_year - start_year + 1) * 4)
          ∧ length (progress_shown st) = length (requests st)
          ∧ Forall (fun p => (0 < p)%Q ∧ (p <= 100)%Q) (progress_shown st)
          ∧ ((start_year ≤ end_year)%Z →
             ∃ p, last (progress_shown st) = Some p ∧ (p == 100)%Q).
Proof.
  destruct (fetch_prefecture_data_cases requests_get code start_year end_year)
    as [H | (st & Hst & (Hk & Hcur & Hreq & Hlen & Hprog & Hlast & Htag))];
    [by left|right].
  exists st. split; [done|].
  split; [rewrite Hreq; lia|]. split; [congruence|]. split; [done|].
  intros Hse. destruct Hlast as (p & Hp & Hq); [lia|].
  exists p. split; [done|]. rewrite Hq.
  replace (Z.max 0 ((end_year - start_year + 1) * 4))
    with ((end_year - start_year + 1) * 4)%Z by lia.
  apply progress_complete. lia.
Qed.

Lemma fetch_prefecture_data_tags_aux rg code s e st :
  fetch_prefecture_data rg code s e = Done st →
  Forall (tagged_by rg code (default code (prefecture_names !! code)) s e)
    (all_data st).
Proof.
  intros Hst.
  destruct (fetch_prefecture_data_cases rg code s e)
    as [(params & _ & H) | (st' & Hst' & (_ & _ & _ & _ & _ & _ & Htag))];
    congruence.
Qed.

(** X19. Every record returned by [fetch_prefecture_data] carries the
    prefecture code asked for, the name of that code (the code itself when
    the code has no name), a year between [start_year] and [end_year] and a
    quarter between 1 and 4, and is a record of the reply to the request
    of that year and quarter. *)
Theorem fetch_prefecture_data_tags
    (requests_get : gmap string str → Reply) (code : str) (start_year end_year : Z)
    (st : FetchState) :
  fetch_prefecture_data requests_get code start_year end_year = Done st →
  Forall (tagged_by requests_get code (default code (prefecture_names !! code))
            start_year end_year) (all_data st).
Proof.
  apply fetch_prefecture_data_tags_aux.
Qed.

Lemma fetch_prefecture_data_tags_witness :
  ∃ st,
    fetch_prefecture_data
      (fun _ => Response 200 (Json (VStr (lit "OK"))
                                (Some [record_of [("Type", "土地")]])))
      (lit "13") 2024 2024 = Done st
    ∧ length (all_data st) = 4%nat
    ∧ Forall (tagged_by
                (fun _ => Response 200 (Json (VStr (lit "OK"))
                                          (Some [record_of [("Type", "土地")]])))
                (lit "13") (lit "東京都") 2024 2024) (all_data st).
Proof.
  eexists. split; [by vm_compute|]. split; [by vm_compute|].
  exact (fetch_prefecture_data_tags
           (fun _ => Response 200 (Json (VStr (lit "OK"))
                                     (Some [record_of [("Type", "土地")]])))
           (lit "13") 2024 2024 _ eq_refl).
Defined.

Lemma fetch_each_spec rg codes s e :
  (fetch_each rg codes s e).*1 = codes.*1
  ∧ Forall (fun item =>
              ∃ code, (item.1, code) ∈ codes
                      ∧ Forall (tagged_by rg code
                                  (default code (prefecture_names !! code)) s e)
                          item.2)
      (fetch_each rg codes s e).
Proof.
  induction codes as [|[name code] codes [IH1 IH2]]; [split; [done|constructor]|].
  cbn [fetch_each]. rewrite !fmap_cons, IH1. split; [done|].
  constructor.
  - exists code. split; [left|]. cbn [snd].
    destruct (fetch_prefecture_data rg code s e) as [st|] eqn:E; [|constructor].
    by eapply fetch_prefecture_data_tags_aux.
  - eapply Forall_impl; [exact IH2|]. intros item (c & Hc & Hall).
    exists c. split; [by right|done].
Qed.

(** X20. [fetch_all_prefectures] returns an entry for each of the six
    prefectures, in the order of [prefecture_codes], whatever the replies
    of the network are (a prefecture whose fetch raises gets no record);
    every record of an entry carries the code of that prefecture and the
    name [prefecture_names] gives to the code, never the bare code. *)
Theorem fetch_all_prefectures_entries
    (requests_get : gmap string str → Reply) (start_year end_year : Z) :
  (fetch_all_prefectures requests_get start_year end_year).*1
  = ["tokyo"; "chiba"; "saitama"; "kanagawa"; "osaka"; "aichi"]%string
  ∧ Forall (fun item =>
              ∃ code name,
                (item.1, code) ∈ prefecture_codes
                ∧ prefecture_names !! code = Some name
                ∧ Forall (tagged_by requests_get code name start_year end_year) item.2)
      (fetch_all_prefectures requests_get start_year end_year).
Proof.
  unfold fetch_all_prefectures.
  destruct (fetch_each_spec requests_get prefecture_codes start_year end_year)
    as [H1 H2].
  split; [by rewrite H1|].
  eapply Forall_impl; [exact H2|]. intros item (code & Hin & Hall).
  assert (Forall (fun nc : string * str => is_Some (prefecture_names !! nc.2))
            prefecture_codes) as Hnames.
  { apply (bool_decide_unpack _). by vm_compute. }
  destruct (proj1 (Forall_forall _ _) Hnames _ Hin) as [name Hname].
  exists code, name. split; [done|]. split; [done|].
  cbn [snd] in Hname. by rewrite Hname in Hall.
Qed.

(** ** Chart generation *)

Lemma counted_refl a : counted 0 a a.
Proof.
  exists []. rewrite app_nil_r. cbn [length].
  repeat (split; [done || lia || constructor|]). done.
Qed.

Lemma counted_trans j k a b c :
  counted j a b → counted k b c → counted (j + k) a c.
Proof.
  intros (n1 & E1 & F1 & L1 & C1 & S1 & P1 & T1) (n2 & E2 & F2 & L2 & C2 & S2 & P2 & T2).
  exists (n1 ++ n2). rewrite E2, E1, <- app_assoc, length_app.
  split; [done|]. split; [by apply Forall_app|].
  split; [lia|]. split; [lia|]. split; [lia|]. split; congruence.
Qed.

Lemma chart_pair_counted draw prefecture df area acc room_type :
  counted 1 acc (chart_pair draw prefecture df area acc room_type).
Proof.
  destruct acc as [n p]. unfold chart_pair.
  destruct (single_chart draw prefecture area room_type df jp) as [e|].
  - exists [ChartFailed prefecture area room_type e]. cbn.
    split; [done|]. split; [repeat constructor; eauto|].
    repeat (split; [done || lia|]). done.
  - destruct (single_chart draw prefecture area room_type df en) as [e|].
    + exists [ChartFailed prefecture area room_type e]. cbn.
      split; [done|]. split; [repeat constructor; eauto|].
      repeat (split; [done || lia|]). done.
    + exists []. cbn. rewrite app_nil_r.
      split; [done|]. split; [constructor|].
      repeat (split; [done || lia|]). done.
Qed.

Lemma foldl_counted {A} (f : nat * Progress → A → nat * Progress) (k : nat) (l : list A) :
  (∀ acc x, counted k acc (f acc x)) →
  ∀ acc, counted (length l * k) acc (foldl f acc l).
Proof.
  intros Hf. induction l as [|x l IH]; intros acc; [apply counted_refl|].
  cbn [foldl length]. replace (S (length l) * k)%nat with (k + length l * k)%nat by lia.
  eapply counted_trans; [apply Hf|apply IH].
Qed.

Lemma generate_charts_for_prefecture_counted draw prefecture df test_mode progress :
  counted (chart_attempts df test_mode) (0%nat, progress)
    (generate_charts_for_prefecture draw prefecture df test_mode progress).
Proof.
  unfold generate_charts_for_prefecture, chart_attempts.
  destruct (frame_empty df); [apply counted_refl|].
  fold (areas_of df test_mode).
  apply foldl_counted. intros acc area.
  replace (length room_types) with (length room_types * 1)%nat by lia.
  apply foldl_counted. intros acc' rt. apply chart_pair_counted.
Qed.

(** X21. [generate_charts_for_prefecture] accounts for every pair of an
    area and a room type it goes through: the pair adds 2 to the returned
    count and to [charts_generated], or one chart failure to the errors.
    So the count plus twice the new errors is twelve times the number of
    areas (none for an empty frame, at most three areas in test mode), and
    the other counters are unchanged. *)
Theorem generate_charts_for_prefecture_accounts
    (draw : string → str → str → language → Series (option Q) → Series nat → option str)
    (prefecture : string) (df : Frame) (test_mode : bool) (progress : Progress) :
  ∃ new,
    errors (generate_charts_for_prefecture draw prefecture df test_mode progress).2
    = errors progress ++ new
    ∧ charts_generated
        (generate_charts_for_prefecture draw prefecture df test_mode progress).2
      = (charts_generated progress
         + (generate_charts_for_prefecture draw prefecture df test_mode progress).1)%nat
    ∧ ((generate_charts_for_prefecture draw prefecture df test_mode progress).1
       + 2 * length new
       = if frame_empty df then 0 else 12 * length (areas_of df test_mode))%nat
    ∧ (test_mode = true →
       ((generate_charts_for_prefecture draw prefecture df test_mode progress).1 ≤ 36)%nat)
    ∧ prefectures_completed
        (generate_charts_for_prefecture draw prefecture df test_mode progress).2
      = prefectures_completed progress
    ∧ total_records_done
        (generate_charts_for_prefecture draw prefecture df test_mode progress).2
      = total_records_done progress.
Proof.
  destruct (generate_charts_for_prefecture_counted draw prefecture df test_mode progress)
    as (new & E & _ & L & C & S & P & T).
  cbn [fst snd] in *. unfold chart_attempts in S.
  replace (length room_types) with 6%nat in S by done.
  exists new. split; [done|]. split; [rewrite C; lia|].
  split; [destruct (frame_empty df); lia|].
  split; [|done].
  intros ->. destruct (frame_empty df); [lia|].
  assert (length (areas_of df true) ≤ 3)%nat; [|lia].
  unfold areas_of. rewrite length_take. lia.
Qed.

Lemma foldl_errors {A} (f : nat * Progress → A → nat * Progress) (l : list A) :
  (∀ acc x, errors (f acc x).2 = errors acc.2) →
  ∀ acc, errors (foldl f acc l).2 = errors acc.2.
Proof.
  intros Hf. induction l as [|x l IH]; intros acc; [done|].
  cbn [foldl]. by rewrite IH, Hf.
Qed.

Lemma single_chart_never_fails draw prefecture area room_type df lang :
  (∀ p a rt l avg cnt, draw p a rt l avg cnt = None) →
  Forall admissible df →
  single_chart draw prefecture area room_type df lang = None.
Proof.
  intros Hdraw Hadm. unfold single_chart. destruct area as [|a]; [done|].
  destruct (generate_single_chart a room_type df) as [[avg cnt]|] eqn:E; [|done].
  destruct (generate_single_chart_drawn_aux a room_type df avg cnt Hadm E)
    as (Havg & _).
  destruct avg; [done|]. by rewrite Hdraw.
Qed.

(** X22. When drawing never fails and the frame holds admitted records,
    [generate_charts_for_prefecture] records no error and returns twelve
    charts per area: it counts two charts for every pair of an area and a
    room type, also for the pairs that have no record and whose chart is
    skipped. *)
Theorem generate_charts_counts_every_pair
    (draw : string → str → str → language → Series (option Q) → Series nat → option str)
    (prefecture : string) (rows : list Transformed) (test_mode : bool)
    (progress : Progress) :
  (∀ p a rt l avg cnt, draw p a rt l avg cnt = None) →
  Forall admissible rows →
  (generate_charts_for_prefecture draw prefecture (Columns rows) test_mode progress).1
  = (12 * length (areas_of (Columns rows) test_mode))%nat
  ∧ charts_generated
      (generate_charts_for_prefecture draw prefecture (Columns rows) test_mode progress).2
    = (charts_generated progress + 12 * length (areas_of (Columns rows) test_mode))%nat
  ∧ errors
      (generate_charts_for_prefecture draw prefecture (Columns rows) test_mode progress).2
    = errors progress.
Proof.
  intros Hdraw Hadm.
  destruct (generate_charts_for_prefecture_counted draw prefecture (Columns rows)
              test_mode progress) as (new & E & _ & L & C & S & _ & _).
  assert (errors (generate_charts_for_prefecture draw prefecture (Columns rows)
                    test_mode progress).2 = errors progress) as Herr.
  { unfold generate_charts_for_prefecture.
    destruct (frame_empty (Columns rows)); [done|].
    change (errors progress) with (errors (0%nat, progress).2).
    apply foldl_errors. intros acc area.
    apply foldl_errors. intros [n p] rt. unfold chart_pair.
    by rewrite !single_chart_never_fails. }
  cbn [fst snd] in *. rewrite Herr in E.
  assert (new = []) as ->.
  { apply nil_length_inv. apply (f_equal length) in E. rewrite length_app in E. lia. }
  unfold chart_attempts in S. replace (length room_types) with 6%nat in S by done.
  cbn [length] in S.
  assert (frame_empty (Columns rows) = true → length (areas_of (Columns rows) test_mode) = 0%nat)
    as Hempty.
  { cbn [frame_empty]. intros ->%bool_decide_eq_true. by destruct test_mode. }
  destruct (frame_empty (Columns rows)); [rewrite Hempty by done|]; split; lia || (split; [lia|done]).
Qed.

Lemma generate_charts_counts_every_pair_witness :
  (generate_charts_for_prefecture (fun _ _ _ _ _ _ => None) "tokyo"
     (Columns [row 2020 100]) false initial_progress).1 = 12%nat
  ∧ generate_single_chart [] (lit "１Ｋ") [row 2020 100] = None.
Proof.
  split; [|by vm_compute].
  refine (proj1 (generate_charts_counts_every_pair (fun _ _ _ _ _ _ => None) "tokyo"
                   [row 2020 100] false initial_progress _ _)); [done|].
  repeat constructor; by eexists.
Defined.

Lemma batch_pair_shift draw prefecture df area n room_type :
  batch_pair draw prefecture df area n room_type
  = (n + batch_pair draw prefecture df area 0 room_type)%nat.
Proof.
  unfold batch_pair.
  destruct (single_chart draw prefecture area room_type df jp); [lia|].
  destruct (single_chart draw prefecture area room_type df en); lia.
Qed.

Lemma foldl_shift {A} (f : nat → A → nat) (l : list A) :
  (∀ n x, f n x = (n + f 0%nat x)%nat) →
  ∀ n, foldl f n l = (n + foldl f 0%nat l)%nat.
Proof.
  intros Hf. induction l as [|x l IH]; intros n; cbn [foldl]; [lia|].
  rewrite IH, (IH (f 0%nat x)), Hf. lia.
Qed.

Lemma chart_pair_fst draw prefecture df area acc room_type :
  (chart_pair draw prefecture df area acc room_type).1
  = batch_pair draw prefecture df area acc.1 room_type.
Proof.
  destruct acc as [n p]. unfold chart_pair, batch_pair.
  destruct (single_chart draw prefecture area room_type df jp); [done|].
  by destruct (single_chart draw prefecture area room_type df en).
Qed.

Lemma foldl_fst {A} (f : nat * Progress → A → nat * Progress) (g : nat → A → nat)
    (l : list A) :
  (∀ acc x, (f acc x).1 = g acc.1 x) →
  ∀ acc, (foldl f acc l).1 = foldl g acc.1 l.
Proof.
  intros Hfg. induction l as [|x l IH]; intros acc; [done|].
  cbn [foldl]. by rewrite IH, Hfg.
Qed.

(** X23. Charts may be generated by batches of areas: the count of a
    batch made of two batches is the sum of their counts, and a prefecture
    processed at once (not in test mode) returns the count of the batch of
    all its areas. *)
Theorem generate_charts_batch_sum
    (draw : string → str → str → language → Series (option Q) → Series nat → option str)
    (prefecture : string) (df : Frame) (areas1 areas2 : list value)
    (progress : Progress) :
  generate_charts_batch draw prefecture df (areas1 ++ areas2)
  = (generate_charts_batch draw prefecture df areas1
     + generate_charts_batch draw prefecture df areas2)%nat
  ∧ (generate_charts_for_prefecture draw prefecture df false progress).1
    = generate_charts_batch draw prefecture df (unique (municipality <$> frame_rows df)).
Proof.
  unfold generate_charts_batch, generate_charts_for_prefecture.
  destruct (frame_empty df); [done|]. split.
  - rewrite foldl_app. apply foldl_shift. intros n area.
    apply foldl_shift. intros m rt. apply batch_pair_shift.
  - rewrite (foldl_fst _ (fun n area =>
                            foldl (batch_pair draw prefecture (frame_rows df) area)
                              n room_types)); [done|].
    intros acc area. apply foldl_fst. intros acc' rt. apply chart_pair_fst.
Qed.

(** ** Transformation step of the pipeline *)

Lemma transform_and_save_one_spec prefecture records frames progress saved :
  ∃ out,
    transform_api_data (fields <$> records) = Ret out
    ∧ transform_and_save_one prefecture records (frames, progress, saved)
      = Ret (frames ++ [(prefecture, frame_of out)],
             {| prefectures_completed := S (prefectures_completed progress);
                total_records_done := total_records_done progress + length out;
                charts_generated := charts_generated progress;
                errors := errors progress |},
             saved ++ option_list (csv_of (prefecture, frame_of out))).
Proof.
  destruct (transform_api_data_filter (fields <$> records)) as (ts & _ & Hout).
  exists (List.filter keep_row ts). split; [done|].
  unfold transform_and_save_one.
  destruct records as [|r records].
  - cbn in Hout. injection Hout as <-. done.
  - rewrite bool_decide_eq_false_2 by done. cbn [negb].
    rewrite Hout. cbn [mbind res_bind].
    by destruct (List.filter keep_row ts).
Qed.

Lemma transform_and_save_loop_spec api_data :
  ∀ frames progress saved,
  ∃ new_frames,
    Forall2 (fun item entry =>
               entry.1 = item.1
               ∧ ∃ out, transform_api_data (fields <$> item.2) = Ret out
                        ∧ entry.2 = frame_of out)
      api_data new_frames
    ∧ transform_and_save_loop api_data (frames, progress, saved)
      = (frames ++ new_frames,
         {| prefectures_completed := prefectures_completed progress + length api_data;
            total_records_done :=
              total_records_done progress
              + sum_list ((fun entry => frame_len entry.2) <$> new_frames);
            charts_generated := charts_generated progress;
            errors := errors progress |},
         saved ++ omap csv_of new_frames,
         None).
Proof.
  induction api_data as [|[prefecture records] api_data IH]; intros frames progress saved.
  - exists []. split; [constructor|]. cbn.
    rewrite !app_nil_r, !Nat.add_0_r. by destruct progress.
  - destruct (transform_and_save_one_spec prefecture records frames progress saved)
      as (out & Hout & Hone).
    cbn [transform_and_save_loop]. rewrite Hone.
    destruct (IH (frames ++ [(prefecture, frame_of out)])
                {| prefectures_completed := S (prefectures_completed progress);
                   total_records_done := total_records_done progress + length out;
                   charts_generated := charts_generated progress;
                   errors := errors progress |}
                (saved ++ option_list (csv_of (prefecture, frame_of out))))
      as (new_frames & HF & ->).
    exists ((prefecture, frame_of out) :: new_frames).
    split; [constructor; [split; [done|eauto]|done]|].
    cbn [prefectures_completed total_records_done charts_generated errors length].
    rewrite fmap_cons. cbn [sum_list_with id fst snd].
    rewrite <- !app_assoc. cbn [app].
    assert (frame_len (frame_of out) = length out) as -> by (by destruct out).
    assert (option_list (csv_of (prefecture, frame_of out)) ++ omap csv_of new_frames
            = omap csv_of ((prefecture, frame_of out) :: new_frames)) as ->.
    { cbn [omap list_omap]. by destruct (csv_of (prefecture, frame_of out)). }
    replace (S (prefectures_completed progress) + length api_data)%nat
      with (prefectures_completed progress + S (length api_data))%nat by lia.
    by rewrite <- Nat.add_assoc.
Qed.

(** X24. [transform_and_save_data] never raises (the files are taken to
    be writable); it gives every prefecture of its input an entry, in
    order, holding the frame of the transformed records of the
    prefecture; it adds the number of prefectures to
    [prefectures_completed] and the rows of the frames to the total of
    records, and it writes one CSV file for each prefecture whose frame
    has rows and none for the others. *)
Theorem transform_and_save_data_entries
    (api_data : list (string * list Tagged)) (progress : Progress) :
  ∃ frames progress' saved,
    transform_and_save_data api_data progress = (frames, progress', saved, None)
    ∧ Forall2 (fun item entry =>
                 entry.1 = item.1
                 ∧ ∃ out, transform_api_data (fields <$> item.2) = Ret out
                          ∧ entry.2 = frame_of out)
        api_data frames
    ∧ prefectures_completed progress'
      = (prefectures_completed progress + length api_data)%nat
    ∧ total_records_done progress'
      = (total_records_done progress
         + sum_list ((fun entry => frame_len entry.2) <$> frames))%nat
    ∧ charts_generated progress' = charts_generated progress
    ∧ errors progress' = errors progress
    ∧ saved = omap csv_of frames.
Proof.
  unfold transform_and_save_data.
  destruct (transform_and_save_loop_spec api_data [] progress []) as (frames & HF & ->).
  eexists _, _, _. split; [done|]. done.
Qed.

(** ** The whole run *)

Lemma generate_all_charts_spec draw frames test_mode :
  ∀ progress,
  ∃ new,
    errors (generate_all_charts draw frames test_mode progress) = errors progress ++ new
    ∧ Forall (fun entry => ∃ prefecture area room_type e,
                             entry = ChartFailed prefecture area room_type e) new
    ∧ (charts_generated (generate_all_charts draw frames test_mode progress)
       + 2 * length new
       = charts_generated progress
         + 2 * sum_list ((fun entry => chart_attempts entry.2 test_mode) <$> frames))%nat
    ∧ prefectures_completed (generate_all_charts draw frames test_mode progress)
      = prefectures_completed progress
    ∧ total_records_done (generate_all_charts draw frames test_mode progress)
      = total_records_done progress.
Proof.
  unfold generate_all_charts.
  induction frames as [|[prefecture df] frames IH]; intros progress.
  - exists []. cbn. rewrite app_nil_r. repeat (split; [done || lia || constructor|]). done.
  - cbn [foldl fst snd].
    destruct (generate_charts_for_prefecture_counted draw prefecture df test_mode progress)
      as (new1 & E1 & F1 & L1 & C1 & S1 & P1 & T1).
    destruct (IH (generate_charts_for_prefecture draw prefecture df test_mode progress).2)
      as (new2 & E2 & F2 & C2 & P2 & T2).
    cbn [fst snd] in *.
    exists (new1 ++ new2). rewrite E2, E1, <- app_assoc, length_app, fmap_cons.
    cbn [sum_list_with id snd].
    split; [done|]. split; [by apply Forall_app|].
    split; [lia|]. split; congruence.
Qed.

Lemma fetch_each_length rg codes s e : length (fetch_each rg codes s e) = length codes.
Proof.
  rewrite <- (length_fmap fst (fetch_each rg codes s e)), (proj1 (fetch_each_spec rg codes s e)).
  apply length_fmap.
Qed.

Lemma completed_report_spec draw test_mode api_data frames progress saved :
  transform_and_save_data api_data initial_progress = (frames, progress, saved, None) →
  report_prefectures_completed
    (generate_completion_report (generate_all_charts draw frames test_mode progress))
  = length api_data
  ∧ report_total_records_processed
      (generate_completion_report (generate_all_charts draw frames test_mode progress))
    = sum_list ((fun entry => frame_len entry.2) <$> frames)
  ∧ report_errors_count
      (generate_completion_report (generate_all_charts draw frames test_mode progress))
    = length (report_errors
                (generate_completion_report
                   (generate_all_charts draw frames test_mode progress)))
  ∧ Forall (fun entry => ∃ prefecture area room_type e,
                           entry = ChartFailed prefecture area room_type e)
      (report_errors
         (generate_completion_report (generate_all_charts draw frames test_mode progress)))
  ∧ (report_charts_generated
       (generate_completion_report (generate_all_charts draw frames test_mode progress))
     + 2 * report_errors_count
             (generate_completion_report
                (generate_all_charts draw frames test_mode progress))
     = 2 * sum_list ((fun entry => chart_attempts entry.2 test_mode) <$> frames))%nat.
Proof.
  unfold transform_and_save_data.
  destruct (transform_and_save_loop_spec api_data [] initial_progress [])
    as (frames' & HF & ->).
  cbn [app]. intros [= <- <- <-].
  set (progress := {| prefectures_completed := _ |}).
  destruct (generate_all_charts_spec draw frames' test_mode progress)
    as (new & E & F & C & P & T).
  unfold generate_completion_report.
  cbn [report_prefectures_completed report_total_records_processed
       report_errors_count report_errors report_charts_generated].
  rewrite P, T, E. subst progress. cbn. cbn in C.
  split; [done|]. split; [done|]. split; [done|]. split; [done|]. lia.
Qed.

Lemma transform_and_save_data_total api_data progress :
  ∃ frames progress' saved,
    transform_and_save_data api_data progress = (frames, progress', saved, None).
Proof.
  unfold transform_and_save_data.
  destruct (transform_and_save_loop_spec api_data [] progress []) as (frames & _ & ->).
  by eexists _, _, _.
Qed.

(** X25. A run of [run_full_update] that is not in test mode always
    reaches its completion report, whatever the network replies and
    whether drawing fails or not (the files are taken to be writable); a run in test mode stops only when the
    fetch of Tokyo raises an uncaught exception, which is then the one
    error recorded.  In a completed report the prefectures completed are 6
    (1 in test mode), the records processed are the rows of the frames, the
    errors are chart failures only, and the charts generated plus twice the
    errors are twice the pairs of an area and a room type of the frames. *)
Theorem run_full_update_report
    (requests_get : gmap string str → Reply)
    (draw : string → str → str → language → Series (option Q) → Series nat → option str)
    (start_year end_year : Z) (test_mode : bool) :
  match run_full_update requests_get draw start_year end_year test_mode with
  | inl report =>
      ∃ api_data frames progress saved,
        transform_and_save_data api_data initial_progress
        = (frames, progress, saved, None)
        ∧ (if test_mode
           then ∃ st, fetch_prefecture_data requests_get (lit "13") start_year end_year
                      = Done st
                      ∧ api_data = [("tokyo"%string, all_data st)]
           else api_data = fetch_all_prefectures requests_get start_year end_year)
        ∧ report_prefectures_completed report = (if test_mode then 1 else 6)%nat
        ∧ report_total_records_processed report
          = sum_list ((fun entry => frame_len entry.2) <$> frames)
        ∧ report_errors_count report = length (report_errors report)
        ∧ Forall (fun entry => ∃ prefecture area room_type e,
                                 entry = ChartFailed prefecture area room_type e)
            (report_errors report)
        ∧ (report_charts_generated report + 2 * report_errors_count report
           = 2 * sum_list ((fun entry => chart_attempts entry.2 test_mode) <$> frames))%nat
  | inr (exc, progress) =>
      test_mode = true
      ∧ exc = FetchRaised Uncaught
      ∧ errors progress = [RunFailed exc]
      ∧ charts_generated progress = 0%nat
      ∧ ∃ params, requests_get params = OtherError
  end.
Proof.
  unfold run_full_update.
  destruct test_mode.
  - destruct (fetch_prefecture_data_cases requests_get (lit "13") start_year end_year)
      as [(params & Hp & ->) | (st & -> & _)].
    + cbn. repeat (split; [done|]). eauto.
    + cbn [mbind outcome_bind].
      destruct (transform_and_save_data_total [("tokyo"%string, all_data st)]
                  initial_progress) as (frames & progress & saved & Heq).
      rewrite Heq.
      exists [("tokyo"%string, all_data st)], frames, progress, saved.
      split; [done|]. split; [eauto|].
      by apply (completed_report_spec draw true _ _ _ _ Heq).
  - destruct (transform_and_save_data_total
                (fetch_all_prefectures requests_get start_year end_year)
                initial_progress) as (frames & progress & saved & Heq).
    rewrite Heq.
    exists (fetch_all_prefectures requests_get start_year end_year), frames, progress, saved.
    split; [done|]. split; [done|].
    destruct (completed_report_spec draw false _ _ _ _ Heq) as (H1 & H2).
    split; [|done]. rewrite H1. apply fetch_each_length.
Qed.
